(** * Alternative-ESG-data-codebase: the Google-trends extraction pipeline
      and the chart template, embedded from

      - [src/data/gtrends_extract.py]
      - [src/visuals/tsf_plots.py]

    Python values are modelled as the code has them: unbounded integers
    as [Z], lists as [list], strings as [string], a [dict] or the file
    system as a finite map.  A call that may raise returns a [result];
    the external world (the trend-data provider, the random number
    generator, the clock) is an explicit environment of oracles. *)

From Stdlib Require Import ZArith QArith.
From stdpp Require Import gmap strings list fin_maps pretty.

Local Open Scope string_scope.
Local Open Scope Z_scope.

(** ** Exceptions and results *)

(** The exceptions that occur in the modelled code.  All of them derive
    from Python's [Exception], which is what the [except Exception]
    clauses of the source catch; interpreter signals that derive from
    [BaseException] only are outside the model. *)
Inductive exn : Type :=
  | ValueError (msg : string)
  | NameError (name : string)
  | KeyError (key : string)
  | IndexError
  | TypeError
  | AssertionError (msg : string)
  | ResponseError (msg : string).

Inductive result (A : Type) : Type :=
  | Ok (a : A)
  | Raise (e : exn).

Arguments Ok {A} a.
Arguments Raise {A} e.

#[global] Instance result_ret : MRet result := λ A a, Ok a.
#[global] Instance result_bind : MBind result :=
  λ A B f m, match m with Ok a => f a | Raise e => Raise e end.

Definition raises {A} (r : result A) : bool :=
  match r with Ok _ => false | Raise _ => true end.

(** ** Python built-ins used by the source *)

Module Py.

(** [range(start, stop, step)] for a non-zero step, as CPython computes
    it: the number of elements first, then the elements. *)
Definition range_len (start stop step : Z) : Z :=
  if 0 <? step then
    (if start <? stop then (stop - start - 1) / step + 1 else 0)
  else
    (if stop <? start then (start - stop - 1) / (- step) + 1 else 0).

Definition range (start stop step : Z) : result (list Z) :=
  if step =? 0 then Raise (ValueError "range() arg 3 must not be zero")
  else Ok (map (λ k : nat, start + Z.of_nat k * step)
               (seq 0 (Z.to_nat (range_len start stop step)))).

(** A slice bound is clamped into [0 .. len]; a negative bound counts
    from the end. *)
Definition clamp (k len : Z) : Z :=
  if k <? 0 then Z.max 0 (k + len) else Z.min k len.

(** [lst[i:j]] *)
Definition slice {A} (lst : list A) (i j : Z) : list A :=
  let len := Z.of_nat (length lst) in
  let a := clamp i len in
  let b := clamp j len in
  take (Z.to_nat (b - a)) (drop (Z.to_nat a) lst).

End Py.

(** ** Utilities of [gtrends_extract.py] *)

(** [[element for sublist in nested_list for element in sublist]] *)
Definition list_flatten {A} (nested_list : list (list A)) : list A :=
  sublist ← nested_list; element ← sublist; [element].

(** The generator [n_batch], run to exhaustion: the list of the chunks
    it yields, one per [i] of [range(0, len(lst), n)]. *)
Definition n_batch {A} (lst : list A) (n : Z) : result (list (list A)) :=
  starts ← Py.range 0 (Z.of_nat (length lst)) n;
  mret (map (λ i, Py.slice lst i (i + n)) starts).

(** [list(n_batch(lst=lst, n=n))] *)
Definition list_batch {A} (lst : list A) (n : Z) : result (list (list A)) :=
  n_batch lst n.

(** ** Data frames *)

(** Column labels: strings, or integers for the default labels pandas
    gives to unnamed columns. *)
Inductive label : Type :=
  | LInt (z : Z)
  | LStr (s : string).

#[global] Instance label_eq_dec : EqDecision label.
Proof. solve_decision. Defined.

(** Cell values.  A float is carried by its Python [repr]; the only one
    the modelled code creates is the [0.0] of [np.zeros]. *)
Inductive cell : Type :=
  | CInt (z : Z)
  | CFloat (repr : string)
  | CStr (s : string)
  | CBool (b : bool)
  | CTime (stamp : string)
  | CNaN.

(** A frame is stored by column: the index, its optional name, and the
    labelled columns in order. *)
Record DataFrame : Type := mkDataFrame {
  index_name : option label;
  index : list cell;
  columns : list (label * list cell)
}.

(** [str(l)] and [repr(l)] of a label, and the [repr] of a list of
    labels, as they appear in the messages of pandas (a string is put
    between single quotes; escapes inside it are not modelled). *)
Definition label_str (l : label) : string :=
  match l with LInt z => pretty z | LStr s => s end.

Definition label_repr (l : label) : string :=
  match l with LInt z => pretty z | LStr s => "'" +:+ s +:+ "'" end.

Definition labels_repr (ls : list label) : string :=
  "[" +:+ String.concat ", " (map label_repr ls) +:+ "]".

Module Pd.

(** [RangeIndex(n)] *)
Definition range_index (n : nat) : list cell :=
  map (λ k : nat, CInt (Z.of_nat k)) (seq 0 n).

(** [pd.DataFrame()] *)
Definition empty : DataFrame := mkDataFrame None [] [].

(** [df.shape[0]] *)
Definition nrows (df : DataFrame) : nat := length (index df).

Definition labels (df : DataFrame) : list label := map fst (columns df).

(** [df[c]] *)
Definition column (c : label) (df : DataFrame) : result (list cell) :=
  match list_find (λ p, p.1 = c) (columns df) with
  | Some (_, (_, v)) => Ok v
  | None => Raise (KeyError (match c with LStr s => s | LInt z => pretty z end))
  end.

(** [pd.DataFrame(lst)] for a list of strings: one column labelled [0]. *)
Definition of_list (lst : list string) : DataFrame :=
  match lst with
  | [] => empty
  | _ => mkDataFrame None (range_index (length lst)) [(LInt 0, map CStr lst)]
  end.

(** [pd.DataFrame(columns=cols)]: the named columns and no rows. *)
Definition of_columns (cols : list string) : DataFrame :=
  mkDataFrame None [] (map (λ c, (LStr c, [])) cols).

(** [df.rename_axis(name)] *)
Definition rename_axis (name : string) (df : DataFrame) : DataFrame :=
  mkDataFrame (Some (LStr name)) (index df) (columns df).

(** [df.reset_index()]: the index becomes the first column, under its
    name ([index], or [level_0] when that is taken, for an unnamed
    index); a clash with an existing column is an error. *)
Definition reset_index (df : DataFrame) : result DataFrame :=
  let name :=
    match index_name df with
    | Some l => l
    | None => if bool_decide (LStr "index" ∈ labels df)
              then LStr "level_0" else LStr "index"
    end in
  if bool_decide (name ∈ labels df)
  then Raise (ValueError ("cannot insert " +:+ label_str name +:+ ", already exists"))
  else Ok (mkDataFrame None (range_index (nrows df))
                       ((name, index df) :: columns df)).

(** [df.drop(cols, axis=1)]: the labels that are not columns are all
    named in the error. *)
Definition drop_columns (cols : list label) (df : DataFrame) : result DataFrame :=
  match filter (λ c, c ∉ labels df) cols with
  | [] =>
      Ok (mkDataFrame (index_name df) (index df)
            (filter (λ p, p.1 ∉ cols) (columns df)))
  | missing => Raise (KeyError (labels_repr missing +:+ " not found in axis"))
  end.

Definition cell_of_label (l : label) : cell :=
  match l with LInt z => CInt z | LStr s => CStr s end.

(** [pd.melt(df, id_vars=[id_var], var_name=.., value_name=..)]: one
    row per row of [df] and per remaining column, column by column.
    The name of the value column must not be a column of [df] already,
    and [id_var] must be one (the wording of that second message is the
    one of pandas 2.2 and later; earlier versions name only
    ['id_vars']). *)
Definition melt (df : DataFrame) (id_var var_name value_name : string)
  : result DataFrame :=
  if bool_decide (LStr value_name ∈ labels df) then
    Raise (ValueError ("value_name (" +:+ value_name
                       +:+ ") cannot match an element in the DataFrame columns."))
  else if bool_decide (LStr id_var ∉ labels df) then
    Raise (KeyError ("The following id_vars or value_vars are not present in the DataFrame: "
                     +:+ labels_repr [LStr id_var]))
  else
  ids ← column (LStr id_var) df;
  let value_vars := filter (λ p, p.1 ≠ LStr id_var) (columns df) in
  mret (mkDataFrame None
          (range_index (nrows df * length value_vars))
          [ (LStr id_var, p ← value_vars; ids);
            (LStr var_name, p ← value_vars; replicate (nrows df) (cell_of_label p.1));
            (LStr value_name, p ← value_vars; p.2) ]).

(** [df[c] = v] for a scalar [v]: the column is overwritten in place, or
    added last. *)
Definition set_scalar (c : label) (v : cell) (df : DataFrame) : DataFrame :=
  let col := replicate (nrows df) v in
  if bool_decide (c ∈ labels df)
  then mkDataFrame (index_name df) (index df)
         (map (λ p, if bool_decide (p.1 = c) then (c, col) else p) (columns df))
  else mkDataFrame (index_name df) (index df) (columns df ++ [(c, col)]).

(** [pd.concat(frames)]: rows of all frames, columns in order of first
    appearance, missing cells filled with NaN. *)
Definition concat (frames : list DataFrame) : result DataFrame :=
  match frames with
  | [] => Raise (ValueError "No objects to concatenate")
  | _ =>
      let cols := remove_dups (df ← frames; labels df) in
      Ok (mkDataFrame None (df ← frames; index df)
            (map (λ c, (c, df ← frames;
                           match column c df with
                           | Ok v => v
                           | Raise _ => replicate (nrows df) CNaN
                           end)) cols))
  end.

(** How [to_csv] prints a cell and a label. *)
Definition render (c : cell) : string :=
  match c with
  | CInt z => pretty z
  | CFloat r => r
  | CStr s => s
  | CBool true => "True"
  | CBool false => "False"
  | CTime t => t
  | CNaN => ""
  end.

Definition render_label (l : label) : string :=
  match l with LInt z => pretty z | LStr s => s end.

(** The line terminator, and the quote character of the [csv] writer. *)
Definition newline : string := String (Ascii.ascii_of_nat 10) "".

Definition quotechar : Ascii.ascii := Ascii.ascii_of_nat 34.

(** Minimal quoting: a field is quoted when it holds the separator, the
    quote character or a line break, and quote characters inside it are
    doubled. *)
Definition special (c : Ascii.ascii) : bool :=
  bool_decide (c ∈ [ Ascii.ascii_of_nat 44; quotechar;
                      Ascii.ascii_of_nat 13; Ascii.ascii_of_nat 10 ]).

Fixpoint needs_quoting (s : string) : bool :=
  match s with
  | EmptyString => false
  | String c rest => special c || needs_quoting rest
  end.

Fixpoint double_quotes (s : string) : string :=
  match s with
  | EmptyString => EmptyString
  | String c rest =>
      if bool_decide (c = quotechar)
      then String c (String c (double_quotes rest))
      else String c (double_quotes rest)
  end.

Definition quote_field (s : string) : string :=
  if needs_quoting s
  then String quotechar (double_quotes s +:+ String quotechar "")
  else s.

(** One record of the file; a record that consists of a single empty
    field is written as a pair of quote characters. *)
Definition line (fields : list string) : string :=
  match fields with
  | [EmptyString] => String quotechar (String quotechar "")
  | _ => String.concat "," (map quote_field fields)
  end +:+ newline.

Definition header_text (df : DataFrame) : string :=
  line (map render_label (labels df)).

(** The [k]-th row of the frame, across its columns. *)
Definition row (df : DataFrame) (k : nat) : list cell :=
  map (λ p, default CNaN (p.2 !! k)) (columns df).

Definition rows_text (df : DataFrame) : string :=
  String.concat "" (map (λ k, line (map render (row df k))) (seq 0 (nrows df))).

(** [df.to_csv(path, index=False, header=.., mode=..)] as the text it
    writes. *)
Definition csv_text (header : bool) (df : DataFrame) : string :=
  (if header then header_text df else "") +:+ rows_text df.

End Pd.

(** ** The trend-data provider *)

(** What [build_payload] stores in a session. *)
Record Payload : Type := mkPayload {
  kw_list : list string;
  cat : Z;
  timeframe : string;
  geo : string
}.

(** What [related_queries()] hands back: normally a dict from keyword to
    a dict from ranking to a frame (or [None]); [get_related_queries]
    puts a frame in its place when the query fails. *)
Inductive Response : Type :=
  | RDict (d : list (string * list (string * option DataFrame)))
  | RFrame (df : DataFrame).

(** A [TrendReq] session, given by the answers of its methods; the
    payload stored by [build_payload] is passed to the query methods. *)
Record Session : Type := mkSession {
  build_payload : Payload → result unit;
  interest_over_time : Payload → result DataFrame;
  related_queries : Payload → result Response
}.

(** The environment of a run: the [n]-th call of [TrendReq()] and the
    [n]-th draw of the random number generator. *)
Record Env : Type := mkEnv {
  TrendReq : nat → result Session;
  entropy : nat → nat
}.

(** ** The world the driver acts on *)

(** One iteration of the retry loop: the batch queried, the bounds
    passed to [randint] with the value drawn, and whether
    [query_googletrends] returned. *)
Record Attempt : Type := mkAttempt {
  att_batch : list string;
  att_lo : Z;
  att_hi : Z;
  att_drawn : Z;
  att_ok : bool
}.

Record World : Type := mkWorld {
  fs : gmap string string;        (* regular files: path to content *)
  sessions : nat;                 (* sessions created so far *)
  draws : nat;                    (* random numbers drawn so far *)
  slept : Z;                      (* seconds spent in [sleep] *)
  stdout : list string;           (* chunks written to [sys.stdout] *)
  attempts : list Attempt;        (* trace of the retry loop *)
  warnings : list (list string)   (* batches reported by [logging.warning] *)
}.

(** Computations that act on the world and may raise. *)
Definition M (A : Type) : Type := World → World * result A.

#[global] Instance M_ret : MRet M := λ A a w, (w, Ok a).
#[global] Instance M_bind : MBind M :=
  λ A B f m w,
    match m w with
    | (w', Ok a) => f a w'
    | (w', Raise e) => (w', Raise e)
    end.

Definition lift {A} (r : result A) : M A := λ w, (w, r).

(** [try: body] with the outcome handed to the [except]/[else] arms. *)
Definition try {A} (body : M A) : M (result A) :=
  λ w, let '(w', r) := body w in (w', Ok r).

(** [for x in xs: body x] without [break]. *)
Fixpoint for_each {A} (xs : list A) (body : A → M unit) : M unit :=
  match xs with
  | [] => mret ()
  | x :: rest => body x ≫= λ _, for_each rest body
  end.

Section Driver.

Context (env : Env).

(** [TrendReq()] *)
Definition create_pytrends_session : M Session :=
  λ w, (mkWorld (fs w) (S (sessions w)) (draws w) (slept w) (stdout w)
                (attempts w) (warnings w),
        TrendReq env (sessions w)).

(** [randint(a, b)] *)
Definition randint (a b : Z) : M Z :=
  λ w, if b <? a then (w, Raise (ValueError "empty range for randrange()"))
       else (mkWorld (fs w) (sessions w) (S (draws w)) (slept w) (stdout w)
                     (attempts w) (warnings w),
             Ok (a + Z.of_nat (entropy env (draws w)) mod (b - a + 1))).

(** [sleep(secs)] *)
Definition sleep (secs : Z) : M unit :=
  λ w, if secs <? 0 then (w, Raise (ValueError "sleep length must be non-negative"))
       else (mkWorld (fs w) (sessions w) (draws w) (slept w + secs) (stdout w)
                     (attempts w) (warnings w), Ok ()).

(** [sys.stdout.write(s)] *)
Definition stdout_write (s : string) : M unit :=
  λ w, (mkWorld (fs w) (sessions w) (draws w) (slept w) (stdout w ++ [s])
                (attempts w) (warnings w), Ok ()).

Definition record_attempt (a : Attempt) : M unit :=
  λ w, (mkWorld (fs w) (sessions w) (draws w) (slept w) (stdout w)
                (attempts w ++ [a]) (warnings w), Ok ()).

(** [logging.warning(f"{kw_batch} appended to unsuccessful_queries")] *)
Definition logging_warning (kw_batch : list string) : M unit :=
  λ w, (mkWorld (fs w) (sessions w) (draws w) (slept w) (stdout w)
                (attempts w) (warnings w ++ [kw_batch]), Ok ()).

(** [os.path.isfile(path)] *)
Definition isfile (fs : gmap string string) (path : string) : bool :=
  bool_decide (is_Some (fs !! path)).

(** [df.to_csv(path, index=False)]: the file is created or truncated. *)
Definition to_csv_write (df : DataFrame) (path : string)
    (fs : gmap string string) : gmap string string :=
  <[path := Pd.csv_text true df]> fs.

(** [df.to_csv(path, index=False, header=False, mode='a')] *)
Definition to_csv_append (df : DataFrame) (path : string)
    (fs : gmap string string) : gmap string string :=
  <[path := default "" (fs !! path) +:+ Pd.csv_text false df]> fs.

(** [df_to_csv] on the file system.  Writing is taken to succeed: the
    paths are writable, so that [to_csv] raises no [OSError]. *)
Definition df_to_csv_fs (df : DataFrame) (filepath : string)
    (fs : gmap string string) : gmap string string :=
  if negb (isfile fs filepath)
  then to_csv_write df filepath fs
  else to_csv_append df filepath fs.

Definition df_to_csv (df : DataFrame) (filepath : string) : M unit :=
  λ w, (mkWorld (df_to_csv_fs df filepath (fs w)) (sessions w) (draws w)
                (slept w) (stdout w) (attempts w) (warnings w), Ok ()).

(** [sleep_countdown(duration, print_step)] *)
Definition sleep_countdown (duration : Z) (print_step : Z) : M unit :=
  steps ← lift (Py.range duration 0 (- print_step));
  for_each steps (λ i,
    sleep print_step ≫= λ _,
    stdout_write (pretty (i - print_step) +:+ " ")).

End Driver.

(** ** Interest over time *)

(** The names bound in the module's global namespace once it is loaded:
    the imports and the functions it defines. *)
Definition module_globals : list string :=
  [ "pd"; "logging"; "os"; "datetime"; "TrendReq"; "sys"; "sleep"; "randint";
    "create_pytrends_session"; "get_related_queries";
    "process_related_query_response"; "unpack_related_queries_response";
    "create_related_queries_dataframe"; "get_related_queries_pipeline";
    "handle_query_results"; "query_googletrends"; "get_query_date_index";
    "list_flatten"; "n_batch"; "list_batch"; "df_to_csv"; "timestamp_now";
    "sleep_countdown"; "get_interest_over_time" ].

(** Reading a global name that is not a built-in. *)
Definition global (globals : list string) (name : string) : result unit :=
  if bool_decide (name ∈ globals) then Ok () else Raise (NameError name).

(** The frame the empty branch of [handle_query_results] builds once
    [np] is resolved: [n = query_length * len(keywords)] rows of zeros,
    then the [date] and [keyword] columns replaced. *)
Definition zeros_frame (keywords : list string) (date_index : option (list cell))
    (query_length : Z) : result DataFrame :=
  let n := query_length * Z.of_nat (length keywords) in
  if n <? 0 then Raise (ValueError "negative dimensions are not allowed") else
  dates ←
    match date_index with
    | Some d =>
        match keywords with
        | [] => Raise (ValueError "No objects to concatenate")
        | _ => Ok (_ ← keywords; d)
        end
    | None => Ok (replicate (Z.to_nat n) (CInt 0))
    end;
  mret (mkDataFrame None (Pd.range_index (Z.to_nat n))
          [ (LStr "date", dates);
            (LStr "keyword",
               kw ← keywords; replicate (Z.to_nat query_length) (CStr kw));
            (LStr "search_interest", replicate (Z.to_nat n) (CFloat "0.0")) ]).

Definition handle_query_results_in (globals : list string)
    (df_query_result : DataFrame) (keywords : list string)
    (date_index : option (list cell)) (query_length : Z) : result DataFrame :=
  if negb (Pd.nrows df_query_result =? 0)%nat then
    df_reset ← Pd.reset_index df_query_result;
    df_query_result_processed ← Pd.drop_columns [LStr "isPartial"] df_reset;
    _ ← global globals "pd";
    Pd.melt df_query_result_processed "date" "keyword" "search_interest"
  else
    let query_length :=
      match date_index with
      | Some d => Z.of_nat (length d)
      | None => query_length
      end in
    _ ← global globals "pd";
    _ ← global globals "np";
    zeros_frame keywords date_index query_length.

(** [handle_query_results], run in the module's own namespace. *)
Definition handle_query_results := handle_query_results_in module_globals.

Section Queries.

Context (env : Env).

Definition query_googletrends (keywords : list string)
    (date_index : option (list cell)) (timeframe : string) : M DataFrame :=
  pt ← create_pytrends_session env;
  let payload := mkPayload keywords 0 timeframe "" in
  _ ← lift (build_payload pt payload);
  df_query_result_raw ← lift (interest_over_time pt payload);
  lift (handle_query_results df_query_result_raw keywords date_index 261).

Definition get_query_date_index (timeframe : string) : M (list cell) :=
  pt ← create_pytrends_session env;
  let payload := mkPayload ["pizza"; "lufthansa"] 0 timeframe "" in
  _ ← lift (build_payload pt payload);
  df ← lift (interest_over_time pt payload);
  df ← lift (Pd.reset_index (Pd.rename_axis "date" df));
  lift (Pd.column (LStr "date") df).

(** ** The batching and retry driver *)

(** The inner [for attempt in range(max_retries)] loop for one batch,
    over the remaining values of [attempt].  It returns the value of the
    local [timeout] and whether the loop was left by [break]. *)
Fixpoint retry_loop (kw_batch : list string) (date_index : list cell)
    (filepath : string) (remaining : list Z) (timeout : Z) : M (Z * bool) :=
  match remaining with
  | [] => mret (timeout, false)
  | _ :: remaining =>
      timeout_randomized ← randint env (timeout - 3) (timeout + 3);
      outcome ← try (query_googletrends kw_batch (Some date_index) "today 5-y");
      match outcome with
      | Raise e =>
          _ ← record_attempt
                (mkAttempt kw_batch (timeout - 3) (timeout + 3) timeout_randomized false);
          let timeout := timeout + 3 in
          _ ← sleep_countdown timeout_randomized 2;
          retry_loop kw_batch date_index filepath remaining timeout
      | Ok df =>
          _ ← record_attempt
                (mkAttempt kw_batch (timeout - 3) (timeout + 3) timeout_randomized true);
          _ ← df_to_csv df filepath;
          _ ← sleep_countdown timeout_randomized 2;
          mret (timeout, true)
      end
  end.

(** The body of [for kw_batch in kw_batches], with the [else] arm of
    the inner loop. *)
Definition process_batch (filepath filepath_unsuccessful : string)
    (max_retries : Z) (date_index : list cell)
    (kw_batch : list string) (timeout : Z) : M Z :=
  remaining ← lift (Py.range 0 max_retries 1);
  '(timeout, broke) ← retry_loop kw_batch date_index filepath remaining timeout;
  if broke : bool then mret timeout
  else
    _ ← df_to_csv (Pd.of_list kw_batch) filepath_unsuccessful;
    _ ← logging_warning kw_batch;
    mret timeout.

(** The outer loop, threading the local [timeout]. *)
Fixpoint process_batches (filepath filepath_unsuccessful : string)
    (max_retries : Z) (date_index : list cell)
    (kw_batches : list (list string)) (timeout : Z) : M Z :=
  match kw_batches with
  | [] => mret timeout
  | kw_batch :: rest =>
      timeout ← process_batch filepath filepath_unsuccessful max_retries
                  date_index kw_batch timeout;
      process_batches filepath filepath_unsuccessful max_retries date_index
        rest timeout
  end.

Definition get_interest_over_time (keyword_list : list string)
    (filepath filepath_unsuccessful : string) (timeframe : string)
    (max_retries : Z) (timeout : Z) : M unit :=
  date_index ← get_query_date_index timeframe;
  kw_batches ← lift (list_batch keyword_list 5);
  _ ← process_batches filepath filepath_unsuccessful max_retries date_index
        kw_batches timeout;
  mret ().

End Queries.

(** ** Related queries *)

(** What a caller may pass as [keyword_list]. *)
Inductive KeywordArg : Type :=
  | KwList (l : list string)
  | KwStr (s : string).

(** The body of the [try] in [get_related_queries]: the two calls to
    the provider. *)
Definition provider_related_queries (pytrends_session : Session)
    (payload : Payload) : result Response :=
  _ ← build_payload pytrends_session payload;
  related_queries pytrends_session payload.

(** [get_related_queries]; the log messages are left out. *)
Definition get_related_queries (pytrends_session : Session)
    (keyword_list : KeywordArg) (cat : Z) (geo : string) : result Response :=
  match keyword_list with
  | KwStr _ =>
      Raise (AssertionError
               "keyword_list should be string. Instead of type <class 'str'>")
  | KwList kws =>
      let df_related_queries := RFrame Pd.empty in
      match provider_related_queries pytrends_session
              (mkPayload kws cat "today 5-y" geo) with
      | Ok response => Ok response
      | Raise e => Ok df_related_queries
      end
  end.

(** [d[k]] for a dict kept in insertion order. *)
Definition dict_get {V} (d : list (string * V)) (k : string) : option V :=
  snd <$> (snd <$> list_find (λ p, p.1 = k) d).

(** [process_related_query_response]; [now] is [datetime.now()].  The
    bare [except] turns every failure into the empty frame. *)
Definition process_related_query_response
    (response : list (string * list (string * option DataFrame)))
    (kw geo ranking : string) (now : string) : DataFrame :=
  match dict_get response kw ≫= λ per_kw, dict_get per_kw ranking with
  | Some (Some df) =>
      Pd.set_scalar (LStr "query_timestamp") (CTime now)
        (Pd.set_scalar (LStr "geo") (CStr geo)
           (Pd.set_scalar (LStr "ranking") (CStr ranking)
              (Pd.set_scalar (LStr "keyword") (CStr kw) df)))
  | _ =>
      Pd.of_columns ["query"; "value"; "keyword"; "ranking"; "geo"; "query_timestamp"]
  end.

Definition unpack_related_queries_response (response : Response)
  : result (list (string * list (string * option DataFrame))
            * list string * list string) :=
  match response with
  | RFrame _ => Raise (AssertionError "Empty response. Try again.")
  | RDict d =>
      match d with
      | [] => Raise IndexError
      | (_, first) :: _ => Ok (d, map fst first, map fst d)
      end
  end.

(** [create_related_queries_dataframe]; [clock k] is what the [k]-th
    call of [datetime.now()] returns. *)
Definition create_related_queries_dataframe
    (response : list (string * list (string * option DataFrame)))
    (rankings keywords : list string) (geo_description : string)
    (clock : nat → string) : result DataFrame :=
  let calls := r ← rankings; kw ← keywords; [(r, kw)] in
  let df_list :=
    imap (λ k '(r, kw),
            process_related_query_response response kw geo_description r (clock k))
         calls in
  Pd.concat df_list.

Definition get_related_queries_pipeline (pytrends_session : Session)
    (keyword_list : KeywordArg) (cat : Z) (geo geo_description : string)
    (clock : nat → string) : result DataFrame :=
  response ← get_related_queries pytrends_session keyword_list cat geo;
  '(response, rankings, keywords) ← unpack_related_queries_response response;
  create_related_queries_dataframe response rankings keywords geo_description clock.

(** ** The chart template of [tsf_plots.py] *)

Module TsfPlots.

Record Font : Type := mkFont { color : string; size : Z }.

(** An annotation; the numeric literals of the source that are not
    integers are kept as exact rationals. *)
Record Annotation : Type := mkAnnotation {
  name : string;
  text : string;
  textangle : Z;
  opacity : Q;
  font : Font;
  xref : string;
  yref : string;
  x : Q;
  y : Q;
  showarrow : bool
}.

Record Template : Type := mkTemplate {
  layout_colorway : list string;
  layout_hovermode : string;
  layout_font_family : string;
  layout_annotations : list Annotation
}.

(** [plotly.io.templates]: the registered templates and the default. *)
Record Templates : Type := mkTemplates {
  registered : gmap string Template;
  default_template : string
}.

(** A calendar date, as [datetime.now()] gives it. *)
Record Date : Type := mkDate { year : Z; month : nat; day : nat }.

Definition month_name (m : nat) : string :=
  nth (m - 1)
    [ "January"; "February"; "March"; "April"; "May"; "June"; "July";
      "August"; "September"; "October"; "November"; "December" ] "".

(** [strftime("%d.%B%Y")] *)
Definition strftime_d_B_Y (d : Date) : string :=
  (if (day d <? 10)%nat then "0" else "") +:+ pretty (day d) +:+ "."
  +:+ month_name (month d) +:+ pretty (year d).

Definition tsf_colorscale : list string :=
  [ "#4d886d"; "#f3dab9"; "#9bcab8"; "#829fa5";
    "#dc9b4d"; "#4a82a1"; "#cfaea5"; "#D5E6E0" ].

Definition tsf_template (now : Date) : Template :=
  let watermark_date := "Updated " +:+ strftime_d_B_Y now in
  let watermark_url := "towardssustainablefinance.com" in
  mkTemplate tsf_colorscale "closest" "Verdana"
    [ mkAnnotation "watermark" watermark_url 0 (65 # 100)
        (mkFont "#545454" 20) "paper" "paper" (1 # 1) (- 15 # 100) false;
      mkAnnotation "watermark2" watermark_date 0 (65 # 100)
        (mkFont "#545454" 16) "paper" "paper" (0 # 1) (1 # 10) false ].

(** [set_layout_template()], called when the clock shows [now]. *)
Definition set_layout_template (now : Date) (pio : Templates) : Templates :=
  let pio := mkTemplates (<["tsf" := tsf_template now]> (registered pio))
                         (default_template pio) in
  mkTemplates (registered pio) "tsf".

(** The template a chart is rendered with when none is given. *)
Definition active_template (pio : Templates) : option Template :=
  registered pio !! default_template pio.

End TsfPlots.

(** ** The remaining utilities *)

(** A wall-clock time, as [strftime] reads it. *)
Record DateTime : Type := mkDateTime {
  dt_year : Z;
  dt_month : nat;
  dt_day : nat;
  dt_hour : nat;
  dt_minute : nat;
  dt_second : nat
}.

Definition two_digits (n : nat) : string :=
  (if (n <? 10)%nat then "0" else "") +:+ pretty n.

(** [strftime("%Y%m%d-%H%M%S")] at the time [now]. *)
Definition strftime_Ymd_HMS (now : DateTime) : string :=
  pretty (dt_year now) +:+ two_digits (dt_month now) +:+ two_digits (dt_day now)
  +:+ "-" +:+ two_digits (dt_hour now) +:+ two_digits (dt_minute now)
  +:+ two_digits (dt_second now).

(** [timestamp_now()], called at the time [now]; [strftime] is read
    from the global namespace. *)
Definition timestamp_now_in (globals : list string) (now : DateTime)
  : result string :=
  _ ← global globals "strftime";
  let timestr := strftime_Ymd_HMS now in
  let timestamp := timestr in
  mret timestamp.

Definition timestamp_now := timestamp_now_in module_globals.

(** ** Vocabulary of the statements *)

(** The number of chunks [n_batch] yields: the length of its [range]. *)
Definition batch_count {A} (lst : list A) (n : Z) : nat :=
  Z.to_nat (Py.range_len 0 (Z.of_nat (length lst)) n).

(** [w'] differs from [w] at most in the counters, the time slept and
    the console output. *)
Definition untouched (w w' : World) : Prop :=
  fs w' = fs w ∧ attempts w' = attempts w ∧ warnings w' = warnings w.

Definition failed (a : Attempt) : Prop := att_ok a = false.

#[global] Instance failed_dec a : Decision (failed a).
Proof. unfold failed. apply _. Defined.

(** The value of the local [timeout] after a run of attempts that
    started at [timeout]: three more for every failure. *)
Definition timeout_after (timeout : Z) (atts : list Attempt) : Z :=
  timeout + 3 * Z.of_nat (length (filter failed atts)).

(** Every attempt of the run drew its delay from the six-wide interval
    around the value [timeout] had when it started. *)
Fixpoint escalating (timeout : Z) (atts : list Attempt) : Prop :=
  match atts with
  | [] => True
  | a :: rest =>
      att_lo a = timeout - 3 ∧ att_hi a = timeout + 3
      ∧ att_lo a ≤ att_drawn a ≤ att_hi a
      ∧ escalating (timeout_after timeout [a]) rest
  end.

(** The attempts one batch may leave in the trace: all of them for that
    batch, no more than [bound] of them, and none after a success. *)
Definition batch_attempts (bound : nat) (kw_batch : list string)
    (atts : list Attempt) : Prop :=
  Forall (λ a, att_batch a = kw_batch) atts
  ∧ (length atts ≤ bound)%nat
  ∧ ∀ i a, atts !! i = Some a → att_ok a = true → S i = length atts.

(** The columns [process_related_query_response] adds to a frame. *)
Definition tag_columns : list label :=
  [LStr "keyword"; LStr "ranking"; LStr "geo"; LStr "query_timestamp"].

(** ** A small environment to run the model in *)

Module Demo.

(** Two weekly observations for each keyword, as the provider returns
    them. *)
Definition frame (kws : list string) : DataFrame :=
  mkDataFrame (Some (LStr "date")) [CTime "2020-01-05"; CTime "2020-01-12"]
    (map (λ k, (LStr k, [CInt 50; CInt 60])) kws
     ++ [(LStr "isPartial", [CBool false; CBool true])]).

Definition related (kws : list string) : Response :=
  RDict (map (λ k, (k, [ ("top", Some (mkDataFrame None [CInt 0]
                                         [ (LStr "query", [CStr "pizza hut"]);
                                           (LStr "value", [CInt 100]) ]));
                         ("rising", None) ])) kws).

Definition answering : Session :=
  mkSession (λ _, Ok ()) (λ p, Ok (frame (kw_list p))) (λ p, Ok (related (kw_list p))).

Definition refusing : Session :=
  mkSession (λ _, Ok ())
    (λ _, Raise (ResponseError "429")) (λ _, Raise (ResponseError "429")).

(** The date-index query is answered, the next two sessions refuse, the
    fourth answers, later ones refuse again. *)
Definition env : Env :=
  mkEnv (λ n, match n with
              | 0%nat | 3%nat => Ok answering
              | _ => Ok refusing
              end)
        (λ n, (5 * n)%nat).

(** The date-index query is answered and nothing after it; the first
    draw is the largest of its interval, the later ones the smallest. *)
Definition env_high_low : Env :=
  mkEnv (λ n, match n with 0%nat => Ok answering | _ => Ok refusing end)
        (λ n, match n with 0%nat => 6%nat | _ => 0%nat end).

(** A session whose queries come back without data. *)
Definition silent : Session :=
  mkSession (λ _, Ok ()) (λ _, Ok Pd.empty) (λ _, Ok (RDict [])).

(** A session that has data for the probe query only. *)
Definition probe_only : Session :=
  mkSession (λ _, Ok ())
    (λ p, if bool_decide (kw_list p = ["pizza"; "lufthansa"])
          then Ok (frame (kw_list p)) else Ok Pd.empty)
    (λ _, Ok (RDict [])).

Definition env_probe_only : Env := mkEnv (λ _, Ok probe_only) (λ n, n).

(** No session can be opened. *)
Definition env_offline : Env :=
  mkEnv (λ _, Raise (ResponseError "offline")) (λ n, n).

(** The date-index query is answered; every later query finds no data. *)
Definition env_no_data : Env :=
  mkEnv (λ n, match n with 0%nat => Ok answering | _ => Ok silent end)
        (λ n, n).

Definition world : World := mkWorld ∅ 0 0 0 [] [] [].

Definition keywords : list string := ["a"; "b"; "c"; "d"; "e"; "f"; "g"].

End Demo.

(** * Properties *)

Local Open Scope list_scope.

(** ** Batching *)

Section Batching.

Context {A : Type}.
Implicit Types (lst : list A) (n : Z).

Lemma list_flatten_concat (nested : list (list A)) :
  list_flatten nested = concat nested.
Proof.
  unfold list_flatten.
  induction nested as [|sub rest IH]; [done|].
  cbn [mbind list_bind concat]. f_equal; [|exact IH].
  clear. induction sub as [|e sub IH]; [done|].
  cbn [mbind list_bind app]. by f_equal.
Qed.

Lemma slice_take_drop lst (i m : nat) :
  Py.slice lst (Z.of_nat i) (Z.of_nat i + Z.of_nat m) = take m (drop i lst).
Proof.
  unfold Py.slice, Py.clamp.
  destruct (Z.ltb_spec (Z.of_nat i) 0); [lia|].
  destruct (Z.ltb_spec (Z.of_nat i + Z.of_nat m) 0); [lia|].
  destruct (decide (i ≤ length lst)%nat) as [Hi|Hi].
  - rewrite (Z.min_l (Z.of_nat i)) by lia. rewrite Nat2Z.id.
    destruct (decide (i + m ≤ length lst)%nat).
    + rewrite Z.min_l by lia. f_equal. lia.
    + rewrite Z.min_r by lia.
      rewrite !take_ge; [done| |]; rewrite length_drop; lia.
  - rewrite !Z.min_r by lia. rewrite Z.sub_diag. cbn [Z.to_nat take].
    rewrite (drop_ge lst i) by lia. by rewrite take_nil.
Qed.

Lemma batch_count_lt lst n (k : nat) :
  0 < n → (k < batch_count lst n)%nat → (k * Z.to_nat n < length lst)%nat.
Proof.
  intros Hn. unfold batch_count, Py.range_len.
  destruct (Z.ltb_spec 0 n); [|lia].
  destruct (Z.ltb_spec 0 (Z.of_nat (length lst))); [|lia].
  intros Hk.
  assert (Z.of_nat k ≤ (Z.of_nat (length lst) - 0 - 1) / n) as Hle by lia.
  assert (n * ((Z.of_nat (length lst) - 0 - 1) / n) ≤ Z.of_nat (length lst) - 0 - 1)
    by (apply Z.mul_div_le; lia).
  nia.
Qed.

Lemma batch_count_ge lst n :
  0 < n → (length lst ≤ batch_count lst n * Z.to_nat n)%nat.
Proof.
  intros Hn. unfold batch_count, Py.range_len.
  destruct (Z.ltb_spec 0 n); [|lia].
  destruct (Z.ltb_spec 0 (Z.of_nat (length lst))); [|lia].
  pose proof (Z.mul_succ_div_gt (Z.of_nat (length lst) - 0 - 1) n Hn).
  assert (0 ≤ (Z.of_nat (length lst) - 0 - 1) / n) by (apply Z.div_pos; lia).
  nia.
Qed.

Lemma list_batch_pos lst n :
  0 < n →
  list_batch lst n
  = Ok (map (λ k : nat, take (Z.to_nat n) (drop (k * Z.to_nat n) lst))
            (seq 0 (batch_count lst n))).
Proof.
  intros Hn. unfold list_batch, n_batch, Py.range.
  destruct (Z.eqb_spec n 0); [lia|].
  cbn [mbind result_bind mret result_ret]. f_equal.
  rewrite map_map. apply map_ext. intros k.
  rewrite <- (slice_take_drop lst (k * Z.to_nat n) (Z.to_nat n)).
  f_equal; lia.
Qed.

Lemma concat_chunks lst (m c : nat) :
  concat (map (λ k : nat, take m (drop (k * m) lst)) (seq 0 c)) = take (c * m) lst.
Proof.
  induction c as [|c IH]; [by rewrite take_0|].
  rewrite seq_S, map_app, concat_app, IH. cbn [map concat plus].
  rewrite app_nil_r, take_take_drop. f_equal. lia.
Qed.

Lemma list_batch_lookup lst n batches (i : nat) b :
  0 < n → list_batch lst n = Ok batches → batches !! i = Some b →
  b = take (Z.to_nat n) (drop (i * Z.to_nat n) lst)
  ∧ (i < batch_count lst n)%nat ∧ length batches = batch_count lst n.
Proof.
  intros Hn. rewrite list_batch_pos by done. intros [= <-] Hb.
  rewrite length_map, length_seq.
  apply list_lookup_fmap_Some in Hb as (k & -> & Hk).
  apply lookup_seq in Hk as [-> ?]. done.
Qed.

Lemma list_batch_length_le lst n batches b :
  0 < n → list_batch lst n = Ok batches → b ∈ batches →
  (1 ≤ length b ≤ Z.to_nat n)%nat.
Proof.
  intros Hn Hl [i Hi]%list_elem_of_lookup.
  destruct (list_batch_lookup _ _ _ _ _ Hn Hl Hi) as (-> & Hlt & _).
  apply batch_count_lt in Hlt; [|done].
  rewrite length_take, length_drop. lia.
Qed.

End Batching.

(** ** The monad of the driver *)

Lemma M_bind_run {A B} (m : M A) (f : A → M B) w :
  (m ≫= f) w
  = match m w with (w1, Ok a) => f a w1 | (w1, Raise e) => (w1, Raise e) end.
Proof. reflexivity. Qed.

Lemma untouched_refl w : untouched w w.
Proof. by unfold untouched. Qed.

Lemma untouched_trans w1 w2 w3 :
  untouched w1 w2 → untouched w2 w3 → untouched w1 w3.
Proof. unfold untouched. intros (-> & -> & ->) (-> & -> & ->). done. Qed.

Lemma countdown_steps_ok (steps : list Z) w :
  ∃ w', for_each steps
          (λ i, sleep 2 ≫= λ _, stdout_write (pretty (i - 2) +:+ " ")) w
        = (w', Ok ()) ∧ untouched w w'.
Proof.
  revert w. induction steps as [|i steps IH]; intros w.
  - exists w. split; [done|apply untouched_refl].
  - cbn [for_each]. rewrite !M_bind_run. cbn [sleep stdout_write Z.ltb Z.compare].
    match goal with |- context [for_each steps _ ?w1] =>
      destruct (IH w1) as (w' & -> & Hu) end.
    exists w'. split; [done|].
    eapply untouched_trans; [|exact Hu]. by unfold untouched.
Qed.

Lemma sleep_countdown_ok duration w :
  ∃ w', sleep_countdown duration 2 w = (w', Ok ()) ∧ untouched w w'.
Proof.
  unfold sleep_countdown, Py.range.
  replace (- (2) =? 0) with false by reflexivity.
  rewrite M_bind_run. cbn [lift]. apply countdown_steps_ok.
Qed.

Lemma randint_ok env timeout w :
  ∃ w' r, randint env (timeout - 3) (timeout + 3) w = (w', Ok r)
          ∧ timeout - 3 ≤ r ≤ timeout + 3 ∧ untouched w w'.
Proof.
  unfold randint. destruct (Z.ltb_spec (timeout + 3) (timeout - 3)); [lia|].
  eexists _, _. split; [done|]. split; [|by unfold untouched].
  pose proof (Z.mod_pos_bound (Z.of_nat (entropy env (draws w)))
                (timeout + 3 - (timeout - 3) + 1)). lia.
Qed.

Lemma query_googletrends_untouched env kw di tf w w' r :
  query_googletrends env kw di tf w = (w', r) → untouched w w'.
Proof.
  unfold query_googletrends, create_pytrends_session.
  rewrite M_bind_run. destruct (TrendReq env (sessions w)) as [pt|e].
  - rewrite !M_bind_run. unfold lift.
    destruct (build_payload pt _); [|by intros [= <- <-]].
    rewrite !M_bind_run. destruct (interest_over_time pt _); by intros [= <- <-].
  - by intros [= <- <-].
Qed.

(** ** The retry loop *)

Lemma timeout_after_nil t : timeout_after t [] = t.
Proof. unfold timeout_after. cbn. lia. Qed.

Lemma timeout_after_app t l1 l2 :
  timeout_after t (l1 ++ l2) = timeout_after (timeout_after t l1) l2.
Proof. unfold timeout_after. rewrite filter_app, length_app. lia. Qed.

Lemma timeout_after_cons t a l :
  timeout_after t (a :: l) = timeout_after (if att_ok a then t else t + 3) l.
Proof.
  change (a :: l) with ([a] ++ l). rewrite timeout_after_app. f_equal.
  unfold timeout_after, failed. rewrite filter_cons.
  destruct (decide (att_ok a = false)) as [->|Hne]; cbn; [lia|].
  destruct (att_ok a); [lia|done].
Qed.

Lemma escalating_app t l1 l2 :
  escalating t (l1 ++ l2) ↔ escalating t l1 ∧ escalating (timeout_after t l1) l2.
Proof.
  revert t. induction l1 as [|a l1 IH]; intros t.
  - rewrite timeout_after_nil. cbn. tauto.
  - cbn [app escalating]. rewrite IH.
    rewrite <- timeout_after_app. cbn [app]. tauto.
Qed.

Section RetryLoop.

Context (env : Env).

(** What one run of the inner loop does, for any starting point. *)
Lemma retry_loop_spec kw_batch date_index filepath remaining :
  ∀ timeout w, ∃ w' broke atts,
    retry_loop env kw_batch date_index filepath remaining timeout w
    = (w', Ok (timeout_after timeout atts, broke))
    ∧ attempts w' = attempts w ++ atts
    ∧ warnings w' = warnings w
    ∧ Forall (λ a, att_batch a = kw_batch) atts
    ∧ escalating timeout atts
    ∧ (length atts ≤ length remaining)%nat
    ∧ (if broke
       then ∃ fails a df w1 w2,
              atts = fails ++ [a] ∧ Forall failed fails ∧ att_ok a = true
              ∧ query_googletrends env kw_batch (Some date_index) "today 5-y" w1
                = (w2, Ok df)
              ∧ fs w' = df_to_csv_fs df filepath (fs w)
       else Forall failed atts ∧ length atts = length remaining
            ∧ fs w' = fs w).
Proof.
  induction remaining as [|attempt remaining IH]; intros timeout w.
  - exists w, false, []. rewrite timeout_after_nil, app_nil_r. by cbn.
  - cbn [retry_loop]. rewrite M_bind_run.
    destruct (randint_ok env timeout w) as (w1 & r & -> & Hr & Hu1).
    rewrite M_bind_run. unfold try at 1.
    destruct (query_googletrends env kw_batch (Some date_index) "today 5-y" w1)
      as [w2 outcome] eqn:Hq.
    pose proof (query_googletrends_untouched _ _ _ _ _ _ _ Hq) as Hu2.
    pose proof (untouched_trans _ _ _ Hu1 Hu2) as (Hfs & Hat & Hwa).
    destruct outcome as [df|e].
    + (* the query returned: store, sleep, break *)
      rewrite M_bind_run. cbn [record_attempt]. rewrite M_bind_run. cbn [df_to_csv].
      rewrite M_bind_run.
      match goal with |- context [sleep_countdown r 2 ?w3] =>
        destruct (sleep_countdown_ok r w3) as (w4 & -> & (Hfs4 & Hat4 & Hwa4)) end.
      cbn in Hfs4, Hat4, Hwa4.
      set (a := mkAttempt kw_batch (timeout - 3) (timeout + 3) r true).
      exists w4, true, [a]. rewrite timeout_after_cons, timeout_after_nil.
      cbn [att_ok a]. split; [done|].
      split; [by rewrite Hat4, Hat|]. split; [by rewrite Hwa4|].
      split; [by repeat constructor|]. split; [by cbn|]. split; [cbn; lia|].
      exists [], a, df, w1, w2. rewrite Hfs4, Hfs. by repeat split.
    + (* the query raised: lengthen the timeout, sleep, go on *)
      rewrite M_bind_run. cbn [record_attempt]. rewrite M_bind_run.
      match goal with |- context [sleep_countdown r 2 ?w3] =>
        destruct (sleep_countdown_ok r w3) as (w4 & -> & (Hfs4 & Hat4 & Hwa4)) end.
      cbn in Hfs4, Hat4, Hwa4.
      destruct (IH (timeout + 3) w4)
        as (w' & broke & atts & -> & Hat' & Hwa' & Hb & He & Hlen & Hcase).
      set (a := mkAttempt kw_batch (timeout - 3) (timeout + 3) r false).
      exists w', broke, (a :: atts). rewrite timeout_after_cons. cbn [att_ok a].
      split; [done|].
      split; [by rewrite Hat', Hat4, Hat, <- app_assoc|].
      split; [by rewrite Hwa', Hwa4|].
      split; [by constructor|].
      split.
      { cbn [escalating]. rewrite timeout_after_cons, timeout_after_nil. by cbn. }
      split; [cbn; lia|].
      destruct broke.
      * destruct Hcase as (fails & a' & df & wa & wb & -> & Hf & Hok & Hq' & Hfs').
        exists (a :: fails), a', df, wa, wb.
        split; [done|]. split; [by constructor|]. split; [done|]. split; [done|].
        by rewrite Hfs', Hfs4, Hfs.
      * destruct Hcase as (Hf & Hl & Hfs').
        split; [by constructor|]. split; [cbn; lia|].
        by rewrite Hfs', Hfs4, Hfs.
Qed.

End RetryLoop.

(** ** One batch, and the batches in turn *)

Lemma range_retries_length max_retries remaining :
  Py.range 0 max_retries 1 = Ok remaining →
  length remaining = Z.to_nat max_retries.
Proof.
  unfold Py.range, Py.range_len. cbn [Z.eqb Z.ltb Z.compare].
  intros [= <-]. rewrite length_map, length_seq.
  destruct (Z.ltb_spec 0 max_retries); [|lia].
  rewrite Z.div_1_r. lia.
Qed.

Lemma failed_not_ok (fails : list Attempt) a rest :
  Forall failed (fails ++ a :: rest) → att_ok a = true → False.
Proof.
  intros Hf Hok. apply Forall_app in Hf as [_ Hf].
  apply Forall_cons in Hf as [Hf _]. unfold failed in Hf. congruence.
Qed.

Section Batches.

Context (env : Env) (filepath filepath_unsuccessful : string)
        (max_retries : Z) (date_index : list cell).

Lemma process_batch_spec kw_batch timeout w :
  ∃ w' atts,
    process_batch env filepath filepath_unsuccessful max_retries date_index
      kw_batch timeout w
    = (w', Ok (timeout_after timeout atts))
    ∧ attempts w' = attempts w ++ atts
    ∧ Forall (λ a, att_batch a = kw_batch) atts
    ∧ escalating timeout atts
    ∧ (length atts ≤ Z.to_nat max_retries)%nat
    ∧ ((∃ fails a df w1 w2,
          atts = fails ++ [a] ∧ Forall failed fails ∧ att_ok a = true
          ∧ query_googletrends env kw_batch (Some date_index) "today 5-y" w1
            = (w2, Ok df)
          ∧ fs w' = df_to_csv_fs df filepath (fs w)
          ∧ warnings w' = warnings w)
       ∨ (Forall failed atts ∧ length atts = Z.to_nat max_retries
          ∧ fs w' = df_to_csv_fs (Pd.of_list kw_batch) filepath_unsuccessful (fs w)
          ∧ warnings w' = warnings w ++ [kw_batch])).
Proof.
  unfold process_batch. rewrite M_bind_run.
  destruct (Py.range 0 max_retries 1) as [remaining|e] eqn:Hrange;
    [|by unfold Py.range in Hrange].
  cbn [lift]. rewrite M_bind_run.
  apply range_retries_length in Hrange.
  destruct (retry_loop_spec env kw_batch date_index filepath remaining timeout w)
    as (w1 & broke & atts & -> & Hat & Hwa & Hb & He & Hlen & Hcase).
  destruct broke.
  - exists w1, atts. split; [done|]. repeat (split; [done || lia|]).
    left. destruct Hcase as (fails & a & df & wa & wb & ? & ? & ? & ? & ?).
    by exists fails, a, df, wa, wb.
  - rewrite M_bind_run. cbn [df_to_csv]. rewrite M_bind_run. cbn [logging_warning].
    eexists _, atts. split; [done|]. cbn [attempts fs warnings].
    repeat (split; [done || lia|]).
    right. destruct Hcase as (? & ? & Hfs). rewrite Hfs, Hwa.
    repeat split; [done|lia].
Qed.

Lemma process_batches_app pre post timeout w :
  process_batches env filepath filepath_unsuccessful max_retries date_index
    (pre ++ post) timeout w
  = (process_batches env filepath filepath_unsuccessful max_retries date_index
       pre timeout
     ≫= process_batches env filepath filepath_unsuccessful max_retries
          date_index post) w.
Proof.
  revert timeout w. induction pre as [|b pre IH]; intros timeout w; [done|].
  cbn [app process_batches]. rewrite !M_bind_run.
  destruct (process_batch _ _ _ _ _ _ _ _) as [w1 [t1|e]]; [|done].
  rewrite IH. by rewrite M_bind_run.
Qed.

Lemma process_batches_spec kw_batches :
  ∀ timeout w, ∃ w' per_batch,
    process_batches env filepath filepath_unsuccessful max_retries date_index
      kw_batches timeout w
    = (w', Ok (timeout_after timeout (concat per_batch)))
    ∧ attempts w' = attempts w ++ concat per_batch
    ∧ escalating timeout (concat per_batch)
    ∧ Forall2 (batch_attempts (Z.to_nat max_retries)) kw_batches per_batch.
Proof.
  induction kw_batches as [|b rest IH]; intros timeout w.
  - exists w, []. cbn [concat]. rewrite timeout_after_nil, app_nil_r.
    by repeat split.
  - cbn [process_batches]. rewrite M_bind_run.
    destruct (process_batch_spec b timeout w)
      as (w1 & atts & -> & Hat & Hb & He & Hlen & Hcase).
    destruct (IH (timeout_after timeout atts) w1)
      as (w' & per_batch & -> & Hat' & He' & HF).
    exists w', (atts :: per_batch). cbn [concat].
    rewrite timeout_after_app. split; [done|].
    split; [by rewrite Hat', Hat, <- app_assoc|].
    split; [by apply escalating_app|].
    constructor; [|done]. split; [done|]. split; [done|].
    intros i a Hi Hok.
    destruct Hcase as [(fails & a' & _ & _ & _ & -> & Hf & _)|(Hf & _)].
    + rewrite length_app. cbn [length].
      destruct (decide (i < length fails)%nat) as [Hlt|Hge].
      * rewrite lookup_app_l in Hi by done.
        eapply Forall_lookup_1 in Hf; [|exact Hi]. unfold failed in Hf. congruence.
      * apply lookup_lt_Some in Hi. rewrite length_app in Hi. cbn in Hi. lia.
    + eapply Forall_lookup_1 in Hf; [|exact Hi]. unfold failed in Hf. congruence.
Qed.

End Batches.

(** ** The driver as a whole *)

Section Run.

Context (env : Env) (keyword_list : list string)
        (filepath filepath_unsuccessful timeframe : string)
        (max_retries timeout : Z).

Lemma get_query_date_index_untouched w w' r :
  get_query_date_index env timeframe w = (w', r) → untouched w w'.
Proof.
  unfold get_query_date_index, create_pytrends_session.
  rewrite M_bind_run. destruct (TrendReq env (sessions w)) as [pt|e];
    [|by intros [= <- <-]].
  rewrite !M_bind_run. unfold lift.
  destruct (build_payload pt _); [|by intros [= <- <-]].
  rewrite !M_bind_run. destruct (interest_over_time pt _); [|by intros [= <- <-]].
  rewrite !M_bind_run. destruct (Pd.reset_index _); by intros [= <- <-].
Qed.

(** Either the date-index query raises and nothing else happens, or the
    batches of five are processed in turn and the call returns. *)
Lemma get_interest_over_time_run w :
  ∃ w0 batches,
    untouched w w0 ∧ list_batch keyword_list 5 = Ok batches
    ∧ ((∃ e, get_query_date_index env timeframe w = (w0, Raise e)
             ∧ get_interest_over_time env keyword_list filepath
                 filepath_unsuccessful timeframe max_retries timeout w
               = (w0, Raise e))
       ∨ (∃ date_index w' t',
             get_query_date_index env timeframe w = (w0, Ok date_index)
             ∧ process_batches env filepath filepath_unsuccessful max_retries
                 date_index batches timeout w0 = (w', Ok t')
             ∧ get_interest_over_time env keyword_list filepath
                 filepath_unsuccessful timeframe max_retries timeout w
               = (w', Ok ()))).
Proof.
  destruct (get_query_date_index env timeframe w) as [w0 r] eqn:Hdi.
  pose proof (get_query_date_index_untouched _ _ _ Hdi) as Hu.
  exists w0. rewrite (list_batch_pos keyword_list 5) by lia.
  eexists. split; [done|]. split; [done|].
  unfold get_interest_over_time. rewrite M_bind_run, Hdi.
  destruct r as [date_index|e]; [right|left; by exists e].
  rewrite M_bind_run, (list_batch_pos keyword_list 5) by lia. cbn [lift].
  rewrite M_bind_run.
  match goal with |- context [process_batches _ _ _ _ _ ?bs _ _] =>
    destruct (process_batches_spec env filepath filepath_unsuccessful
                max_retries date_index bs timeout w0)
      as (w' & per_batch & Hrun & _) end.
  exists date_index, w', (timeout_after timeout (concat per_batch)).
  by rewrite Hrun.
Qed.

(** The trace a run adds: the attempts of the processed batches, batch
    by batch. *)
Lemma get_interest_over_time_trace w :
  let run := get_interest_over_time env keyword_list filepath
               filepath_unsuccessful timeframe max_retries timeout w in
  ∃ batches per_batch,
    list_batch keyword_list 5 = Ok batches
    ∧ attempts run.1 = attempts w ++ concat per_batch
    ∧ escalating timeout (concat per_batch)
    ∧ Forall2 (batch_attempts (Z.to_nat max_retries))
        (if raises run.2 then [] else batches) per_batch.
Proof.
  intros run. subst run.
  destruct (get_interest_over_time_run w)
    as (w0 & batches & (_ & Hat & _) & Hb & [(e & _ & ->)|(di & w' & t' & _ & Hp & ->)]).
  - exists batches, []. cbn [fst snd raises concat]. rewrite app_nil_r.
    repeat split; [done..|constructor].
  - destruct (process_batches_spec env filepath filepath_unsuccessful
                max_retries di batches timeout w0)
      as (w'' & per_batch & Hrun & Hat' & He & HF).
    rewrite Hp in Hrun. injection Hrun as <- _.
    exists batches, per_batch. cbn [fst snd raises].
    by rewrite Hat', Hat.
Qed.

End Run.

(** * The claims *)

(** ** Batching *)





(** C8. For a batch size [n > 0], flattening the batches of a list gives
    the list back: [list_flatten(list_batch(lst, n)) == lst]. *)
Theorem list_flatten_list_batch {A} (lst : list A) (n : Z) :
  0 < n →
  ∃ batches, list_batch lst n = Ok batches ∧ list_flatten batches = lst.
Proof.
  intros Hn. eexists. split; [by apply list_batch_pos|].
  rewrite list_flatten_concat, concat_chunks.
  apply take_ge, batch_count_ge, Hn.
Qed.

Lemma list_flatten_list_batch_witness :
  0 < 2
  ∧ ∃ batches, list_batch ["pizza"; "lufthansa"; "esg"] 2 = Ok batches
               ∧ list_flatten batches = ["pizza"; "lufthansa"; "esg"].
Proof.
  split; [lia|]. apply (list_flatten_list_batch ["pizza"; "lufthansa"; "esg"] 2). lia.
Defined.

(** ** The driver *)

(** C10. Every batch that [get_interest_over_time] passes to
    [query_googletrends] has at most five keywords. *)
Theorem batches_at_most_five (env : Env) (keyword_list : list string)
    (filepath filepath_unsuccessful timeframe : string)
    (max_retries timeout : Z) (w : World) :
  let run := get_interest_over_time env keyword_list filepath
               filepath_unsuccessful timeframe max_retries timeout w in
  ∃ new, attempts run.1 = attempts w ++ new
         ∧ Forall (λ a, (length (att_batch a) ≤ 5)%nat) new.
Proof.
  intros run.
  destruct (get_interest_over_time_trace env keyword_list filepath
              filepath_unsuccessful timeframe max_retries timeout w)
    as (batches & per_batch & Hb & Hat & _ & HF).
  exists (concat per_batch). split; [done|].
  apply Forall_concat. clear Hat. subst run.
  set (processed := if raises _ then [] else batches) in HF.
  assert (Forall (λ b : list string, b ∈ batches) processed) as Hin.
  { subst processed. destruct (raises _); [constructor|]. by apply Forall_forall. }
  clearbody processed. revert Hin.
  induction HF as [|b atts bs per (Hall & _) _ IH]; intros Hin; [constructor|].
  apply Forall_cons in Hin as [Hin Hins].
  constructor; [|by apply IH].
  eapply Forall_impl; [exact Hall|]. intros a ->.
  by destruct (list_batch_length_le keyword_list 5 batches b ltac:(lia) Hb Hin).
Qed.

(** C2. With [max_retries >= 0], every batch is queried at most
    [max_retries] times, and a successful attempt is the last one made
    for its batch. *)
Theorem retries_bounded (env : Env) (keyword_list : list string)
    (filepath filepath_unsuccessful timeframe : string)
    (max_retries timeout : Z) (w : World) :
  0 ≤ max_retries →
  let run := get_interest_over_time env keyword_list filepath
               filepath_unsuccessful timeframe max_retries timeout w in
  ∃ batches per_batch,
    list_batch keyword_list 5 = Ok batches
    ∧ attempts run.1 = attempts w ++ concat per_batch
    ∧ Forall2 (λ b atts,
                 Forall (λ a, att_batch a = b) atts
                 ∧ Z.of_nat (length atts) ≤ max_retries
                 ∧ ∀ i a, atts !! i = Some a → att_ok a = true →
                          S i = length atts)
        (if raises run.2 then [] else batches) per_batch.
Proof.
  intros Hmr run.
  destruct (get_interest_over_time_trace env keyword_list filepath
              filepath_unsuccessful timeframe max_retries timeout w)
    as (batches & per_batch & Hb & Hat & _ & HF).
  exists batches, per_batch. split; [done|]. split; [done|].
  eapply Forall2_impl; [exact HF|].
  intros b atts (? & ? & ?). split; [done|]. split; [lia|done].
Qed.

Lemma retries_bounded_witness :
  0 ≤ 3
  ∧ (let run := get_interest_over_time Demo.env Demo.keywords "out.csv"
                  "failed.csv" "today 5-y" 3 20 Demo.world in
     ∃ batches per_batch,
       list_batch Demo.keywords 5 = Ok batches
       ∧ attempts run.1 = attempts Demo.world ++ concat per_batch
       ∧ Forall2 (λ b atts,
                    Forall (λ a, att_batch a = b) atts
                    ∧ Z.of_nat (length atts) ≤ 3
                    ∧ ∀ i a, atts !! i = Some a → att_ok a = true →
                             S i = length atts)
           (if raises run.2 then [] else batches) per_batch).
Proof.
  split; [lia|].
  apply (retries_bounded Demo.env Demo.keywords "out.csv" "failed.csv"
           "today 5-y" 3 20 Demo.world).
  lia.
Defined.

(** C4. The interval an attempt draws its delay from is
    [[T - 3, T + 3]], where [T] is the initial [timeout] plus three for
    every failed attempt before it, in the same batch or an earlier one.
    So from an attempt to any later one the bounds grow by three for
    every failure in between: they never shrink, and they grow by at
    least three when the earlier attempt itself failed. *)
Theorem timeout_escalates (env : Env) (keyword_list : list string)
    (filepath filepath_unsuccessful timeframe : string)
    (max_retries timeout : Z) (w : World)
    (pre : list Attempt) (a : Attempt) (mid : list Attempt) (b : Attempt)
    (post : list Attempt) :
  let run := get_interest_over_time env keyword_list filepath
               filepath_unsuccessful timeframe max_retries timeout w in
  attempts run.1 = attempts w ++ pre ++ a :: mid ++ b :: post →
  (att_lo a = timeout_after timeout pre - 3
   ∧ att_hi a = timeout_after timeout pre + 3
   ∧ att_lo a ≤ att_drawn a ≤ att_hi a)
  ∧ att_lo b = att_lo a + 3 * Z.of_nat (length (filter failed (a :: mid)))
  ∧ att_hi b = att_hi a + 3 * Z.of_nat (length (filter failed (a :: mid)))
  ∧ (att_lo a ≤ att_lo b ∧ att_hi a ≤ att_hi b)
  ∧ (att_ok a = false → att_lo a + 3 ≤ att_lo b ∧ att_hi a + 3 ≤ att_hi b).
Proof.
  intros run Hsplit.
  destruct (get_interest_over_time_trace env keyword_list filepath
              filepath_unsuccessful timeframe max_retries timeout w)
    as (batches & per_batch & _ & Hat & He & _).
  fold run in Hat. rewrite Hsplit in Hat. apply app_inv_head in Hat.
  rewrite <- Hat in He. clear Hat Hsplit.
  apply escalating_app in He as [_ He]. cbn [escalating] in He.
  destruct He as (Hlo & Hhi & Hdrawn & He).
  apply escalating_app in He as [_ He]. cbn [escalating] in He.
  destruct He as (Hlo' & Hhi' & _).
  rewrite <- timeout_after_app in Hlo', Hhi'. cbn [app] in Hlo', Hhi'.
  set (T := timeout_after timeout pre) in *.
  assert (timeout_after T (a :: mid)
          = T + 3 * Z.of_nat (length (filter failed (a :: mid)))) as HT by done.
  assert (att_ok a = false → (1 ≤ length (filter failed (a :: mid)))%nat) as Hone.
  { intros Hf. rewrite filter_cons_True by done. cbn. lia. }
  do 4 (split; [lia|]).
  intros Hf. specialize (Hone Hf). lia.
Qed.

Lemma timeout_escalates_witness :
  let a1 := mkAttempt ["a"; "b"; "c"; "d"; "e"] 17 23 17 false in
  let a2 := mkAttempt ["a"; "b"; "c"; "d"; "e"] 20 26 25 false in
  let a3 := mkAttempt ["a"; "b"; "c"; "d"; "e"] 23 29 26 true in
  let a4 := mkAttempt ["f"; "g"] 23 29 24 false in
  let a5 := mkAttempt ["f"; "g"] 26 32 32 false in
  let a6 := mkAttempt ["f"; "g"] 29 35 33 false in
  let run := get_interest_over_time Demo.env Demo.keywords "out.csv"
               "failed.csv" "today 5-y" 3 20 Demo.world in
  attempts run.1 = attempts Demo.world ++ [a1] ++ a2 :: [a3; a4] ++ a5 :: [a6]
  ∧ (att_lo a2 = timeout_after 20 [a1] - 3
     ∧ att_hi a2 = timeout_after 20 [a1] + 3
     ∧ att_lo a2 ≤ att_drawn a2 ≤ att_hi a2)
  ∧ att_lo a5 = att_lo a2 + 3 * Z.of_nat (length (filter failed (a2 :: [a3; a4])))
  ∧ att_hi a5 = att_hi a2 + 3 * Z.of_nat (length (filter failed (a2 :: [a3; a4])))
  ∧ (att_lo a2 ≤ att_lo a5 ∧ att_hi a2 ≤ att_hi a5)
  ∧ (att_ok a2 = false → att_lo a2 + 3 ≤ att_lo a5 ∧ att_hi a2 + 3 ≤ att_hi a5).
Proof.
  intros a1 a2 a3 a4 a5 a6 run.
  assert (attempts run.1
          = attempts Demo.world ++ [a1] ++ a2 :: [a3; a4] ++ a5 :: [a6]) as Hrun
    by (vm_compute; reflexivity).
  split; [exact Hrun|].
  exact (timeout_escalates Demo.env Demo.keywords "out.csv" "failed.csv"
           "today 5-y" 3 20 Demo.world [a1] a2 [a3; a4] a5 [a6] Hrun).
Defined.

(** The bounds escalate; the value drawn between them need not. *)
Example drawn_delay_may_drop :
  attempts (get_interest_over_time Demo.env_high_low ["pizza"] "out.csv"
              "failed.csv" "today 5-y" 2 20 Demo.world).1
  = [ mkAttempt ["pizza"] 17 23 23 false; mkAttempt ["pizza"] 20 26 20 false ].
Proof. vm_compute. reflexivity. Qed.

(** ** Writing the results *)

Lemma df_to_csv_fs_lookup df path (files : gmap string string) :
  df_to_csv_fs df path files !! path
  = Some (default "" (files !! path)
          +:+ Pd.csv_text (negb (isfile files path)) df).
Proof.
  unfold df_to_csv_fs, to_csv_write, to_csv_append, isfile.
  destruct (files !! path) as [old|] eqn:Hold.
  - rewrite bool_decide_eq_true_2 by eauto. cbn [negb].
    by rewrite lookup_insert_eq.
  - rewrite bool_decide_eq_false_2 by (intros [? [=]]). cbn [negb].
    by rewrite lookup_insert_eq.
Qed.

Lemma df_to_csv_fs_other df path other (files : gmap string string) :
  path ≠ other → df_to_csv_fs df path files !! other = files !! other.
Proof.
  intros Hne. unfold df_to_csv_fs, to_csv_write, to_csv_append.
  destruct (negb _); by rewrite lookup_insert_ne.
Qed.

(** C5. [df_to_csv] never fails.  Afterwards the file holds what it held
    before (nothing, if it did not exist), followed by the header line
    exactly when it did not exist, followed by the rows of the frame;
    every other file is as it was. *)
Theorem df_to_csv_appends (df : DataFrame) (filepath : string) (w : World) :
  let existed := isfile (fs w) filepath in
  let run := df_to_csv df filepath w in
  run.2 = Ok ()
  ∧ existed = bool_decide (is_Some (fs w !! filepath))
  ∧ fs run.1 !! filepath
    = Some (default "" (fs w !! filepath)
            +:+ (if existed then "" else Pd.header_text df)
            +:+ Pd.rows_text df)
  ∧ (existed = false → fs w !! filepath = None)
  ∧ ∀ other, other ≠ filepath → fs run.1 !! other = fs w !! other.
Proof.
  intros existed run. subst existed run. cbn [df_to_csv fst snd fs].
  split; [done|]. split; [done|].
  split.
  { rewrite df_to_csv_fs_lookup. unfold Pd.csv_text.
    by destruct (isfile (fs w) filepath). }
  split.
  { unfold isfile. intros Hno%bool_decide_eq_false.
    destruct (fs w !! filepath); [|done]. destruct Hno. eauto. }
  intros other Hne. by apply df_to_csv_fs_other.
Qed.

Lemma df_to_csv_appends_witness :
  let w := mkWorld {[ "out.csv" := "date,keyword,search_interest" ]} 0 0 0 [] [] [] in
  let df := Pd.of_list ["f"; "g"] in
  let existed := isfile (fs w) "failed.csv" in
  let run := df_to_csv df "failed.csv" w in
  run.2 = Ok ()
  ∧ existed = bool_decide (is_Some (fs w !! "failed.csv"))
  ∧ fs run.1 !! "failed.csv"
    = Some (default "" (fs w !! "failed.csv")
            +:+ (if existed then "" else Pd.header_text df)
            +:+ Pd.rows_text df)
  ∧ (existed = false → fs w !! "failed.csv" = None)
  ∧ ∀ other, other ≠ "failed.csv" → fs run.1 !! other = fs w !! other.
Proof.
  intros w df.
  exact (df_to_csv_appends df "failed.csv" w).
Defined.

(** ** Reshaping the query results *)

Lemma handle_query_results_empty df keywords date_index query_length :
  Pd.nrows df = 0%nat →
  handle_query_results df keywords date_index query_length
  = Raise (NameError "np").
Proof.
  intros Hempty. unfold handle_query_results, handle_query_results_in.
  by rewrite Hempty.
Qed.

(** What the non-empty branch returns has the three columns. *)
Lemma handle_query_results_long df keywords date_index query_length out :
  Pd.nrows df ≠ 0%nat →
  handle_query_results df keywords date_index query_length = Ok out →
  Pd.labels out = [LStr "date"; LStr "keyword"; LStr "search_interest"].
Proof.
  intros Hne. unfold handle_query_results, handle_query_results_in.
  destruct (Nat.eqb_spec (Pd.nrows df) 0); [done|]. cbn [negb].
  destruct (Pd.reset_index df) as [df1|]; [|done]. cbn [mbind result_bind].
  destruct (Pd.drop_columns _ df1) as [df2|]; [|done]. cbn [mbind result_bind].
  destruct (global module_globals "pd"); [|done]. cbn [mbind result_bind].
  unfold Pd.melt. do 2 (destruct (bool_decide _); [done|]).
  destruct (Pd.column _ df2); [|done].
  by intros [= <-].
Qed.

(** Had [np] been bound, the empty branch would build the frame of
    zeros: three columns, [len(date_index) * len(keywords)] rows, each
    keyword repeated [len(date_index)] times. *)
Lemma handle_query_results_with_numpy keywords (dates : list cell) query_length :
  keywords ≠ [] →
  ∃ out,
    handle_query_results_in ("np" :: module_globals) Pd.empty keywords
      (Some dates) query_length = Ok out
    ∧ Pd.labels out = [LStr "date"; LStr "keyword"; LStr "search_interest"]
    ∧ Pd.nrows out = (length dates * length keywords)%nat
    ∧ Pd.column (LStr "keyword") out
      = Ok (kw ← keywords; replicate (length dates) (CStr kw))
    ∧ Pd.column (LStr "search_interest") out
      = Ok (replicate (length dates * length keywords) (CFloat "0.0")).
Proof.
  intros Hkw. unfold handle_query_results_in, zeros_frame.
  cbn [Pd.nrows Pd.empty index length Nat.eqb negb].
  replace (global _ "pd") with (Ok ()) by reflexivity.
  replace (global _ "np") with (Ok ()) by reflexivity.
  cbn [mbind result_bind].
  destruct (Z.ltb_spec (Z.of_nat (length dates) * Z.of_nat (length keywords)) 0);
    [lia|].
  destruct keywords as [|kw keywords]; [done|].
  eexists. split; [reflexivity|]. split; [reflexivity|].
  rewrite <- Nat2Z.inj_mul, !Nat2Z.id.
  split.
  { unfold Pd.nrows, Pd.range_index. cbn [index].
    by rewrite length_map, length_seq. }
  split; reflexivity.
Qed.

(** C6, where the code departs from it.  On an empty query result
    [handle_query_results] does not return the frame of zeros: the name
    [np] it reads is bound nowhere in the module, so the call raises
    [NameError]. *)
Theorem handle_query_results_empty_raises :
  handle_query_results Pd.empty ["pizza"; "lufthansa"]
    (Some [CTime "2020-01-05"; CTime "2020-01-12"]) 261
  = Raise (NameError "np").
Proof. reflexivity. Qed.

(** ** Unsuccessful batches *)

Lemma range_index_length n : length (Pd.range_index n) = n.
Proof. unfold Pd.range_index. by rewrite length_map, length_seq. Qed.

Lemma map_seq_lookup {A B} (f : A → B) (d : A) (l : list A) :
  map (λ k, f (default d (l !! k))) (seq 0 (length l)) = map f l.
Proof.
  induction l as [|x l IH]; [done|].
  cbn [length seq map]. f_equal.
  rewrite <- seq_shift, map_map. exact IH.
Qed.

(** The text [to_csv] writes for a batch: the header [0], and a line
    for every keyword. *)
Lemma of_list_csv (kw_batch : list string) :
  kw_batch ≠ [] →
  Pd.header_text (Pd.of_list kw_batch) = "0" +:+ Pd.newline
  ∧ Pd.rows_text (Pd.of_list kw_batch)
    = String.concat "" (map (λ kw, Pd.line [kw]) kw_batch).
Proof.
  intros Hne. destruct kw_batch as [|kw0 rest]; [done|].
  split; [reflexivity|].
  change (Pd.of_list (kw0 :: rest))
    with (mkDataFrame None (Pd.range_index (length (kw0 :: rest)))
            [(LInt 0, map CStr (kw0 :: rest))]).
  generalize (kw0 :: rest). intros lst.
  unfold Pd.rows_text, Pd.row, Pd.nrows. cbn [index columns map snd].
  rewrite range_index_length. f_equal.
  rewrite <- (map_seq_lookup (λ kw, Pd.line [kw]) "" lst).
  apply map_ext. intros k. do 2 f_equal.
  change (map CStr lst) with (CStr <$> lst). rewrite list_lookup_fmap.
  by destruct (lst !! k).
Qed.

(** A frame that [query_googletrends] returns has the three columns. *)
Lemma query_googletrends_header env keywords date_index timeframe w1 w2 df :
  query_googletrends env keywords date_index timeframe w1 = (w2, Ok df) →
  Pd.header_text df = "date,keyword,search_interest" +:+ Pd.newline.
Proof.
  unfold query_googletrends, create_pytrends_session.
  rewrite M_bind_run. destruct (TrendReq env (sessions w1)) as [pt|e]; [|done].
  rewrite !M_bind_run. unfold lift.
  destruct (build_payload pt _); [|done].
  rewrite !M_bind_run. destruct (interest_over_time pt _) as [raw|]; [|done].
  intros [= _ Hout].
  destruct (decide (Pd.nrows raw = 0%nat)) as [Hz|Hnz].
  { by rewrite handle_query_results_empty in Hout. }
  unfold Pd.header_text.
  by rewrite (handle_query_results_long _ _ _ _ _ Hnz Hout).
Qed.

(** C3. Take a run that got past the date-index query and writes to two
    different files, and any batch [b] of the keyword list.  The batch is
    processed from a world [w1] to a world [w2].  If all its attempts
    failed, there were [max_retries] of them and the batch went to
    [filepath_unsuccessful] through [df_to_csv] as a one-column frame:
    the file then holds what it held before, the header [0] if it did
    not exist, and one line per keyword of the batch; the file at
    [filepath] is as it was.  If some attempt succeeded, the frame that
    [query_googletrends] returned went to [filepath] through
    [df_to_csv]: the file then holds what it held before, the header
    [date,keyword,search_interest] if it did not exist, and the rows of
    that frame; the file at [filepath_unsuccessful] is as it was. *)
Theorem unsuccessful_batches_recorded (env : Env) (keyword_list : list string)
    (filepath filepath_unsuccessful timeframe : string)
    (max_retries timeout : Z) (w : World)
    (pre : list (list string)) (b : list string) (post : list (list string)) :
  let run := get_interest_over_time env keyword_list filepath
               filepath_unsuccessful timeframe max_retries timeout w in
  filepath ≠ filepath_unsuccessful →
  list_batch keyword_list 5 = Ok (pre ++ b :: post) →
  run.2 = Ok () →
  ∃ date_index w0 t1 w1 atts w2 t',
    get_query_date_index env timeframe w = (w0, Ok date_index)
    ∧ process_batches env filepath filepath_unsuccessful max_retries
        date_index pre timeout w0 = (w1, Ok t1)
    ∧ process_batch env filepath filepath_unsuccessful max_retries
        date_index b t1 w1 = (w2, Ok (timeout_after t1 atts))
    ∧ process_batches env filepath filepath_unsuccessful max_retries
        date_index post (timeout_after t1 atts) w2 = (run.1, Ok t')
    ∧ attempts w2 = attempts w1 ++ atts
    ∧ Forall (λ a, att_batch a = b) atts
    ∧ (Forall failed atts →
         length atts = Z.to_nat max_retries
         ∧ fs w2 = df_to_csv_fs (Pd.of_list b) filepath_unsuccessful (fs w1)
         ∧ fs w2 !! filepath_unsuccessful
           = Some (default "" (fs w1 !! filepath_unsuccessful)
                   +:+ (if isfile (fs w1) filepath_unsuccessful then ""
                        else "0" +:+ Pd.newline)
                   +:+ String.concat "" (map (λ kw, Pd.line [kw]) b))
         ∧ fs w2 !! filepath = fs w1 !! filepath)
    ∧ (Exists (λ a, att_ok a = true) atts →
         ∃ w3 w4 df,
           query_googletrends env b (Some date_index) "today 5-y" w3 = (w4, Ok df)
           ∧ fs w2 = df_to_csv_fs df filepath (fs w1)
           ∧ fs w2 !! filepath
             = Some (default "" (fs w1 !! filepath)
                     +:+ (if isfile (fs w1) filepath then ""
                          else "date,keyword,search_interest" +:+ Pd.newline)
                     +:+ Pd.rows_text df)
           ∧ fs w2 !! filepath_unsuccessful = fs w1 !! filepath_unsuccessful).
Proof.
  intros run Hne Hbatches Hok. subst run.
  assert (b ≠ []) as Hb_ne.
  { intros ->.
    destruct (list_batch_length_le keyword_list 5 _ [] ltac:(lia) Hbatches)
      as [Hlen _]; [|cbn in Hlen; lia].
    apply elem_of_app. right. apply list_elem_of_here. }
  destruct (get_interest_over_time_run env keyword_list filepath
              filepath_unsuccessful timeframe max_retries timeout w)
    as (w0 & batches & _ & Hb & [(e & _ & Hrun)|(di & w' & t' & Hdi & Hp & Hrun)]).
  { rewrite Hrun in Hok. discriminate. }
  rewrite Hrun. cbn [fst]. clear Hrun Hok.
  rewrite Hbatches in Hb. injection Hb as <-.
  rewrite process_batches_app, M_bind_run in Hp.
  destruct (process_batches_spec env filepath filepath_unsuccessful max_retries
              di pre timeout w0) as (w1 & per_pre & Hpre & _).
  rewrite Hpre in Hp. cbn [process_batches] in Hp. rewrite M_bind_run in Hp.
  destruct (process_batch_spec env filepath filepath_unsuccessful max_retries
              di b (timeout_after timeout (concat per_pre)) w1)
    as (w2 & atts & Hstep & Hat & Hall & _ & _ & Hcase).
  rewrite Hstep in Hp.
  exists di, w0, (timeout_after timeout (concat per_pre)), w1, atts, w2, t'.
  do 6 (split; [done|]).
  split.
  - intros Hfailed.
    destruct Hcase as [(fails & a & _ & _ & _ & -> & _ & Hsucc & _)|(_ & Hlen & Hfs & _)].
    { destruct (failed_not_ok fails a [] Hfailed Hsucc). }
    split; [done|]. split; [done|].
    split; [|rewrite Hfs; by apply df_to_csv_fs_other].
    rewrite Hfs, df_to_csv_fs_lookup. unfold Pd.csv_text.
    destruct (of_list_csv b Hb_ne) as [-> ->].
    by destruct (isfile (fs w1) filepath_unsuccessful).
  - intros Hsome.
    destruct Hcase as [(fails & a & df & w3 & w4 & _ & _ & _ & Hq & Hfs & _)|(Hfailed & _)].
    + exists w3, w4, df. split; [done|]. split; [done|].
      split; [|rewrite Hfs; by apply df_to_csv_fs_other].
      rewrite Hfs, df_to_csv_fs_lookup. unfold Pd.csv_text.
      rewrite (query_googletrends_header _ _ _ _ _ _ _ Hq).
      by destruct (isfile (fs w1) filepath).
    + apply Exists_exists in Hsome as (a & Hin & Hsucc).
      rewrite Forall_forall in Hfailed. specialize (Hfailed a Hin).
      unfold failed in Hfailed. congruence.
Qed.

Lemma unsuccessful_batches_recorded_witness :
  let run := get_interest_over_time Demo.env Demo.keywords "out.csv"
               "failed.csv" "today 5-y" 3 20 Demo.world in
  let b := ["f"; "g"] in
  "out.csv" ≠ "failed.csv"
  ∧ list_batch Demo.keywords 5 = Ok ([["a"; "b"; "c"; "d"; "e"]] ++ b :: [])
  ∧ run.2 = Ok ()
  ∧ ∃ date_index w0 t1 w1 atts w2 t',
      get_query_date_index Demo.env "today 5-y" Demo.world = (w0, Ok date_index)
      ∧ process_batches Demo.env "out.csv" "failed.csv" 3 date_index
          [["a"; "b"; "c"; "d"; "e"]] 20 w0 = (w1, Ok t1)
      ∧ process_batch Demo.env "out.csv" "failed.csv" 3 date_index b t1 w1
        = (w2, Ok (timeout_after t1 atts))
      ∧ process_batches Demo.env "out.csv" "failed.csv" 3 date_index []
          (timeout_after t1 atts) w2 = (run.1, Ok t')
      ∧ attempts w2 = attempts w1 ++ atts
      ∧ Forall (λ a, att_batch a = b) atts
      ∧ (Forall failed atts →
           length atts = Z.to_nat 3
           ∧ fs w2 = df_to_csv_fs (Pd.of_list b) "failed.csv" (fs w1)
           ∧ fs w2 !! "failed.csv"
             = Some (default "" (fs w1 !! "failed.csv")
                     +:+ (if isfile (fs w1) "failed.csv" then ""
                          else "0" +:+ Pd.newline)
                     +:+ String.concat "" (map (λ kw, Pd.line [kw]) b))
           ∧ fs w2 !! "out.csv" = fs w1 !! "out.csv")
      ∧ (Exists (λ a, att_ok a = true) atts →
           ∃ w3 w4 df,
             query_googletrends Demo.env b (Some date_index) "today 5-y" w3
             = (w4, Ok df)
             ∧ fs w2 = df_to_csv_fs df "out.csv" (fs w1)
             ∧ fs w2 !! "out.csv"
               = Some (default "" (fs w1 !! "out.csv")
                       +:+ (if isfile (fs w1) "out.csv" then ""
                            else "date,keyword,search_interest" +:+ Pd.newline)
                       +:+ Pd.rows_text df)
             ∧ fs w2 !! "failed.csv" = fs w1 !! "failed.csv").
Proof.
  intros run b.
  assert ("out.csv" ≠ "failed.csv") as Hne by discriminate.
  assert (list_batch Demo.keywords 5 = Ok ([["a"; "b"; "c"; "d"; "e"]] ++ b :: []))
    as Hb by reflexivity.
  assert (run.2 = Ok ()) as Hok by (vm_compute; reflexivity).
  split; [exact Hne|]. split; [exact Hb|]. split; [exact Hok|].
  exact (unsuccessful_batches_recorded Demo.env Demo.keywords "out.csv"
           "failed.csv" "today 5-y" 3 20 Demo.world
           [["a"; "b"; "c"; "d"; "e"]] b [] Hne Hb Hok).
Defined.

(** What the run of the demonstration leaves in the two files. *)
Example unsuccessful_batches_files :
  let run := get_interest_over_time Demo.env Demo.keywords "out.csv"
               "failed.csv" "today 5-y" 3 20 Demo.world in
  fs run.1 !! "failed.csv"
  = Some ("0" +:+ Pd.newline +:+ "f" +:+ Pd.newline +:+ "g" +:+ Pd.newline)
  ∧ fs run.1 !! "out.csv"
    = Some (String.concat Pd.newline
              [ "date,keyword,search_interest";
                "2020-01-05,a,50"; "2020-01-12,a,60";
                "2020-01-05,b,50"; "2020-01-12,b,60";
                "2020-01-05,c,50"; "2020-01-12,c,60";
                "2020-01-05,d,50"; "2020-01-12,d,60";
                "2020-01-05,e,50"; "2020-01-12,e,60"; "" ]).
Proof. vm_compute. split; reflexivity. Qed.

(** ** Related queries *)

Lemma get_related_queries_unfold sess kws cat geo :
  get_related_queries sess (KwList kws) cat geo
  = match provider_related_queries sess (mkPayload kws cat "today 5-y" geo) with
    | Ok response => Ok response
    | Raise _ => Ok (RFrame Pd.empty)
    end.
Proof. reflexivity. Qed.

(** C9. Given a list of keywords, [get_related_queries] never raises:
    it returns the provider's response when the query goes through and
    the empty frame when it raises.  The empty frame makes
    [unpack_related_queries_response] fail its assertion, so after a
    failed query [get_related_queries_pipeline] raises [AssertionError]
    and returns no frame. *)
Theorem get_related_queries_never_raises (pytrends_session : Session)
    (keywords : list string) (cat : Z) (geo geo_description : string)
    (clock : nat → string) :
  let query := provider_related_queries pytrends_session
                 (mkPayload keywords cat "today 5-y" geo) in
  raises (get_related_queries pytrends_session (KwList keywords) cat geo) = false
  ∧ (∀ response, query = Ok response →
       get_related_queries pytrends_session (KwList keywords) cat geo
       = Ok response)
  ∧ (∀ e, query = Raise e →
       get_related_queries pytrends_session (KwList keywords) cat geo
       = Ok (RFrame Pd.empty)
       ∧ get_related_queries_pipeline pytrends_session (KwList keywords) cat
           geo geo_description clock
         = Raise (AssertionError "Empty response. Try again."))
  ∧ unpack_related_queries_response (RFrame Pd.empty)
    = Raise (AssertionError "Empty response. Try again.").
Proof.
  intros query. subst query.
  unfold get_related_queries_pipeline. rewrite get_related_queries_unfold.
  destruct (provider_related_queries _ _) as [response|e0].
  - split; [done|]. split; [by intros ? [= <-]|]. split; [done|done].
  - split; [done|]. split; [done|]. split; [|done]. by intros e _.
Qed.

Lemma get_related_queries_never_raises_witness :
  let query := provider_related_queries Demo.refusing
                 (mkPayload ["pizza"] 0 "today 5-y" "") in
  query = Raise (ResponseError "429")
  ∧ raises (get_related_queries Demo.refusing (KwList ["pizza"]) 0 "") = false
  ∧ (∀ response, query = Ok response →
       get_related_queries Demo.refusing (KwList ["pizza"]) 0 "" = Ok response)
  ∧ (∀ e, query = Raise e →
       get_related_queries Demo.refusing (KwList ["pizza"]) 0 ""
       = Ok (RFrame Pd.empty)
       ∧ get_related_queries_pipeline Demo.refusing (KwList ["pizza"]) 0 ""
           "global" (λ _, "2020-01-05 12:00:00")
         = Raise (AssertionError "Empty response. Try again."))
  ∧ unpack_related_queries_response (RFrame Pd.empty)
    = Raise (AssertionError "Empty response. Try again.").
Proof.
  intros query. split; [reflexivity|].
  exact (get_related_queries_never_raises Demo.refusing ["pizza"] 0 "" "global"
           (λ _, "2020-01-05 12:00:00")).
Defined.

(** ** The chart template *)

(** C7. [set_layout_template] registers under the name [tsf] a template
    with the palette of eight colours, the Verdana font family and two
    annotations: the site address at paper position [(1, -0.15)] and the
    dated watermark at [(0, 0.1)].  It makes [tsf] the default, so that
    charts rendered afterwards use this template. *)
Theorem set_layout_template_registers (now : TsfPlots.Date)
    (pio : TsfPlots.Templates) :
  let pio' := TsfPlots.set_layout_template now pio in
  ∃ tsf url dated,
    TsfPlots.registered pio' !! "tsf" = Some tsf
    ∧ TsfPlots.default_template pio' = "tsf"
    ∧ TsfPlots.active_template pio' = Some tsf
    ∧ TsfPlots.layout_colorway tsf = TsfPlots.tsf_colorscale
    ∧ length (TsfPlots.layout_colorway tsf) = 8%nat
    ∧ TsfPlots.layout_font_family tsf = "Verdana"
    ∧ TsfPlots.layout_annotations tsf = [url; dated]
    ∧ TsfPlots.text url = "towardssustainablefinance.com"
    ∧ TsfPlots.xref url = "paper" ∧ TsfPlots.yref url = "paper"
    ∧ TsfPlots.x url = 1%Q ∧ TsfPlots.y url = (- 15 # 100)%Q
    ∧ TsfPlots.text dated = "Updated " +:+ TsfPlots.strftime_d_B_Y now
    ∧ TsfPlots.xref dated = "paper" ∧ TsfPlots.yref dated = "paper"
    ∧ TsfPlots.x dated = 0%Q ∧ TsfPlots.y dated = (1 # 10)%Q.
Proof.
  intros pio'. subst pio'.
  unfold TsfPlots.set_layout_template, TsfPlots.active_template.
  cbn [TsfPlots.registered TsfPlots.default_template].
  rewrite lookup_insert_eq.
  eexists _, _, _. split; [reflexivity|].
  repeat split; reflexivity.
Qed.

Example set_layout_template_date :
  TsfPlots.strftime_d_B_Y (TsfPlots.mkDate 2021 3 7) = "07.March2021".
Proof. reflexivity. Qed.

(** * Further properties *)

(** ** Batch sizes and counts *)

(** A batch size of zero is an error for every list, and a negative one
    silently yields no batch at all. *)
Theorem list_batch_degenerate_sizes {A} (lst : list A) (n : Z) :
  list_batch lst 0 = Raise (ValueError "range() arg 3 must not be zero")
  ∧ (n < 0 → list_batch lst n = Ok []).
Proof.
  split; [done|]. intros Hn.
  unfold list_batch, n_batch, Py.range, Py.range_len.
  destruct (Z.eqb_spec n 0); [lia|].
  destruct (Z.ltb_spec 0 n); [lia|].
  destruct (Z.ltb_spec (Z.of_nat (length lst)) 0); [lia|]. done.
Qed.

Lemma list_batch_degenerate_sizes_witness :
  -2 < 0
  ∧ list_batch ["pizza"; "lufthansa"] 0
    = Raise (ValueError "range() arg 3 must not be zero")
  ∧ list_batch ["pizza"; "lufthansa"] (-2) = Ok [].
Proof.
  assert (-2 < 0) as Hn by lia.
  destruct (list_batch_degenerate_sizes ["pizza"; "lufthansa"] (-2)) as [H0 Hneg].
  split; [exact Hn|]. split; [exact H0|exact (Hneg Hn)].
Defined.

(** For a positive batch size the number of batches is the length of the
    list divided by the size, rounded up; there is no batch exactly when
    the list is empty. *)
Theorem list_batch_count {A} (lst : list A) (n : Z) :
  0 < n →
  ∃ batches,
    list_batch lst n = Ok batches
    ∧ Z.of_nat (length batches) = (Z.of_nat (length lst) + n - 1) / n
    ∧ (batches = [] ↔ lst = []).
Proof.
  intros Hn. eexists. split; [by apply list_batch_pos|].
  rewrite length_map, length_seq.
  assert (Z.of_nat (batch_count lst n) = (Z.of_nat (length lst) + n - 1) / n)
    as Hcount.
  { unfold batch_count, Py.range_len.
    destruct (Z.ltb_spec 0 n); [|lia].
    destruct (Z.ltb_spec 0 (Z.of_nat (length lst))) as [Hpos|Hzero].
    - replace (Z.of_nat (length lst) + n - 1)
        with (Z.of_nat (length lst) - 0 - 1 + 1 * n) by lia.
      rewrite Z.div_add by lia.
      assert (0 ≤ (Z.of_nat (length lst) - 0 - 1) / n) by (apply Z.div_pos; lia).
      lia.
    - replace (Z.of_nat (length lst)) with 0 by lia.
      rewrite Z.div_small by lia. done. }
  split; [done|].
  split.
  - intros Hnil. apply (f_equal length) in Hnil.
    rewrite length_map, length_seq in Hnil. cbn in Hnil.
    destruct lst as [|x lst]; [done|].
    pose proof (batch_count_ge (x :: lst) n Hn) as Hge.
    rewrite Hnil in Hge. cbn in Hge. lia.
  - intros ->. unfold batch_count, Py.range_len. cbn [length Z.of_nat].
    by destruct (0 <? n).
Qed.

Lemma list_batch_count_witness :
  0 < 5
  ∧ ∃ batches,
      list_batch Demo.keywords 5 = Ok batches
      ∧ Z.of_nat (length batches) = (Z.of_nat (length Demo.keywords) + 5 - 1) / 5
      ∧ (batches = [] ↔ Demo.keywords = []).
Proof. split; [lia|]. apply (list_batch_count Demo.keywords 5). lia. Defined.

(** A non-empty list that is no longer than the batch size is its own
    single batch. *)
Theorem list_batch_short {A} (lst : list A) (n : Z) :
  lst ≠ [] → Z.of_nat (length lst) ≤ n → list_batch lst n = Ok [lst].
Proof.
  intros Hne Hlen.
  assert (0 < length lst)%nat by (destruct lst; [done|cbn; lia]).
  rewrite list_batch_pos by lia. f_equal.
  assert (batch_count lst n = 1%nat) as ->.
  { unfold batch_count, Py.range_len.
    destruct (Z.ltb_spec 0 n); [|lia].
    destruct (Z.ltb_spec 0 (Z.of_nat (length lst))); [|lia].
    rewrite Z.div_small by lia. done. }
  cbn [seq map]. rewrite Nat.mul_0_l, drop_0, take_ge by lia. done.
Qed.

Lemma list_batch_short_witness :
  ["pizza"; "lufthansa"] ≠ []
  ∧ Z.of_nat (length ["pizza"; "lufthansa"]) ≤ 5
  ∧ list_batch ["pizza"; "lufthansa"] 5 = Ok [["pizza"; "lufthansa"]].
Proof.
  assert (["pizza"; "lufthansa"] ≠ []) as Hne by discriminate.
  assert (Z.of_nat (length ["pizza"; "lufthansa"]) ≤ 5) as Hlen by (cbn; lia).
  split; [exact Hne|]. split; [exact Hlen|].
  exact (list_batch_short ["pizza"; "lufthansa"] 5 Hne Hlen).
Defined.

(** Flattening keeps the order: it distributes over concatenation of the
    outer list, and undoes the wrapping of every element into a
    one-element list. *)
Theorem list_flatten_app_singletons {A} (xs ys : list (list A)) (l : list A) :
  list_flatten (xs ++ ys) = list_flatten xs ++ list_flatten ys
  ∧ list_flatten (map (λ x, [x]) l) = l
  ∧ length (list_flatten xs) = sum_list (map length xs).
Proof.
  rewrite !list_flatten_concat. split; [apply concat_app|]. split.
  - induction l as [|x l IH]; [done|]. cbn. by rewrite IH.
  - induction xs as [|x xs IH]; [done|]. cbn. rewrite length_app, IH. done.
Qed.

(** ** The countdown *)

Lemma countdown_steps_sleep (print_step : Z) (steps : list Z) w :
  0 ≤ print_step →
  ∃ w',
    for_each steps
      (λ i, sleep print_step ≫= λ _,
            stdout_write (pretty (i - print_step) +:+ " ")) w
    = (w', Ok ())
    ∧ slept w' = slept w + print_step * Z.of_nat (length steps)
    ∧ stdout w' = stdout w ++ map (λ i, pretty (i - print_step) +:+ " ") steps
    ∧ fs w' = fs w ∧ sessions w' = sessions w ∧ draws w' = draws w
    ∧ attempts w' = attempts w ∧ warnings w' = warnings w.
Proof.
  intros Hps. revert w. induction steps as [|i steps IH]; intros w.
  - exists w. cbn [for_each length map]. rewrite app_nil_r.
    repeat split; [lia|done..].
  - cbn [for_each]. rewrite !M_bind_run. unfold sleep at 1.
    destruct (Z.ltb_spec print_step 0); [lia|].
    cbn [stdout_write].
    match goal with |- context [for_each steps _ ?w1] =>
      destruct (IH w1) as (w' & -> & Hs & Ho & Hfs & Hse & Hd & Ha & Hw) end.
    cbn in Hs, Ho, Hfs, Hse, Hd, Ha, Hw.
    exists w'. split; [done|]. rewrite Hs, Ho, <- app_assoc. cbn [length map].
    repeat split; [lia|done..].
Qed.

(** With a positive step [sleep_countdown] never fails.  It sleeps the
    step once for every started step of the duration, so at least the
    duration and less than a step longer, and writes the remaining time
    after each one; files are left alone. *)
Theorem sleep_countdown_sleeps (duration print_step : Z) (w : World) :
  0 < print_step →
  let steps := Z.to_nat ((duration + print_step - 1) / print_step) in
  let run := sleep_countdown duration print_step w in
  run.2 = Ok ()
  ∧ slept run.1 = slept w + print_step * Z.of_nat steps
  ∧ stdout run.1
    = stdout w
      ++ map (λ k : nat, pretty (duration - Z.of_nat (S k) * print_step) +:+ " ")
             (seq 0 steps)
  ∧ fs run.1 = fs w
  ∧ (0 ≤ duration → duration ≤ slept run.1 - slept w < duration + print_step).
Proof.
  intros Hps steps run. subst run.
  unfold sleep_countdown, Py.range.
  destruct (Z.eqb_spec (- print_step) 0); [lia|].
  rewrite M_bind_run. cbn [lift].
  match goal with |- context [for_each ?l _ w] =>
    destruct (countdown_steps_sleep print_step l w ltac:(lia))
      as (w' & -> & Hs & Ho & Hfs & _) end.
  cbn [fst snd]. rewrite length_map, length_seq in Hs. rewrite map_map in Ho.
  assert (Z.to_nat (Py.range_len duration 0 (- print_step)) = steps) as Hlen.
  { subst steps. unfold Py.range_len.
    destruct (Z.ltb_spec 0 (- print_step)); [lia|].
    destruct (Z.ltb_spec 0 duration).
    - replace (duration + print_step - 1)
        with (duration - 0 - 1 + 1 * print_step) by lia.
      rewrite Z.div_add, Z.opp_involutive by lia. done.
    - assert ((duration + print_step - 1) / print_step < 1)
        by (apply Z.div_lt_upper_bound; lia).
      lia. }
  rewrite Hlen in Hs, Ho.
  split; [done|]. split; [done|].
  split.
  { rewrite Ho. f_equal. apply map_ext. intros k. do 2 f_equal. lia. }
  split; [done|].
  intros Hd. rewrite Hs. subst steps.
  destruct (decide (duration = 0)) as [->|].
  - rewrite Z.div_small by lia. cbn. lia.
  - replace (duration + print_step - 1)
      with (duration - 1 + 1 * print_step) by lia.
    rewrite Z.div_add by lia.
    pose proof (Z.mul_div_le (duration - 1) print_step Hps).
    pose proof (Z.mul_succ_div_gt (duration - 1) print_step Hps).
    assert (0 ≤ (duration - 1) / print_step) by (apply Z.div_pos; lia).
    lia.
Qed.

Lemma sleep_countdown_sleeps_witness :
  0 < 2
  ∧ let steps := Z.to_nat ((5 + 2 - 1) / 2) in
    let run := sleep_countdown 5 2 Demo.world in
    run.2 = Ok ()
    ∧ slept run.1 = slept Demo.world + 2 * Z.of_nat steps
    ∧ stdout run.1
      = stdout Demo.world
        ++ map (λ k : nat, pretty (5 - Z.of_nat (S k) * 2) +:+ " ") (seq 0 steps)
    ∧ fs run.1 = fs Demo.world
    ∧ (0 ≤ 5 → 5 ≤ slept run.1 - slept Demo.world < 5 + 2).
Proof. split; [lia|]. apply (sleep_countdown_sleeps 5 2 Demo.world). lia. Defined.

(** The other steps: zero is an error before anything happens; with a
    negative step a non-negative duration is not waited for at all, and
    a negative duration fails at the first [sleep]. *)
Theorem sleep_countdown_degenerate (duration print_step : Z) (w : World) :
  sleep_countdown duration 0 w
  = (w, Raise (ValueError "range() arg 3 must not be zero"))
  ∧ (print_step < 0 → 0 ≤ duration →
       sleep_countdown duration print_step w = (w, Ok ()))
  ∧ (print_step < 0 → duration < 0 →
       sleep_countdown duration print_step w
       = (w, Raise (ValueError "sleep length must be non-negative"))).
Proof.
  split; [done|].
  split; intros Hps Hd; unfold sleep_countdown, Py.range;
    (destruct (Z.eqb_spec (- print_step) 0); [lia|]);
    rewrite M_bind_run; cbn [lift]; unfold Py.range_len;
    (destruct (Z.ltb_spec 0 (- print_step)); [|lia]).
  - destruct (Z.ltb_spec duration 0); [lia|]. done.
  - destruct (Z.ltb_spec duration 0); [|lia].
    assert (0 ≤ (0 - duration - 1) / - print_step) by (apply Z.div_pos; lia).
    destruct (Z.to_nat ((0 - duration - 1) / - print_step + 1)) as [|k] eqn:Hk;
      [lia|].
    cbn [seq map for_each]. rewrite M_bind_run. unfold sleep at 1.
    destruct (Z.ltb_spec print_step 0); [|lia]. done.
Qed.

Lemma sleep_countdown_degenerate_witness :
  -2 < 0 ∧ 0 ≤ 10 ∧ -3 < 0
  ∧ sleep_countdown 10 0 Demo.world
    = (Demo.world, Raise (ValueError "range() arg 3 must not be zero"))
  ∧ sleep_countdown 10 (-2) Demo.world = (Demo.world, Ok ())
  ∧ sleep_countdown (-3) (-2) Demo.world
    = (Demo.world, Raise (ValueError "sleep length must be non-negative")).
Proof.
  assert (-2 < 0) as Hps by lia.
  assert (0 ≤ 10) as Hd by lia.
  assert (-3 < 0) as Hd' by lia.
  destruct (sleep_countdown_degenerate 10 (-2) Demo.world) as (Hzero & Hskip & _).
  destruct (sleep_countdown_degenerate (-3) (-2) Demo.world) as (_ & _ & Hfail).
  do 3 (split; [assumption|]).
  split; [exact Hzero|]. split; [exact (Hskip Hps Hd)|exact (Hfail Hps Hd')].
Defined.

(** ** Successive writes *)

Lemma string_app_assoc (s1 s2 s3 : string) :
  (s1 +:+ s2) +:+ s3 = s1 +:+ (s2 +:+ s3).
Proof.
  induction s1 as [|c s1 IH]; [done|].
  change (String c ((s1 +:+ s2) +:+ s3) = String c (s1 +:+ (s2 +:+ s3))).
  by f_equal.
Qed.

Lemma string_app_empty_r (s : string) : s +:+ "" = s.
Proof.
  induction s as [|c s IH]; [done|].
  change (String c (s +:+ "") = String c s). by f_equal.
Qed.

Lemma df_to_csv_existing dfs path old w :
  fs w !! path = Some old →
  ∃ w',
    for_each dfs (λ df, df_to_csv df path) w = (w', Ok ())
    ∧ fs w' !! path
      = Some (old +:+ foldr (λ df acc, Pd.rows_text df +:+ acc) "" dfs)
    ∧ ∀ other, other ≠ path → fs w' !! other = fs w !! other.
Proof.
  revert old w. induction dfs as [|df dfs IH]; intros old w Hold.
  - exists w. cbn [for_each foldr]. by rewrite string_app_empty_r.
  - cbn [for_each]. rewrite M_bind_run. cbn [df_to_csv].
    match goal with |- context [for_each dfs _ ?w1] =>
      destruct (IH (old +:+ Pd.rows_text df) w1) as (w' & -> & Hnew & Hother) end.
    { cbn [fs]. rewrite df_to_csv_fs_lookup, Hold. unfold isfile.
      rewrite bool_decide_eq_true_2 by (rewrite Hold; eauto). done. }
    exists w'. split; [done|]. cbn [foldr]. rewrite Hnew, string_app_assoc.
    split; [done|]. intros other Hne. rewrite Hother by done.
    cbn [fs]. by apply df_to_csv_fs_other.
Qed.

(** Writing frames one after the other to the same path never fails and
    leaves the old content of the file (none, if it did not exist), the
    header of the first frame if the file did not exist, and then the
    rows of all the frames in order: the header appears once, and only
    that of the first frame.  Other files are as they were. *)
Theorem df_to_csv_sequence (df0 : DataFrame) (rest : list DataFrame)
    (path : string) (w : World) :
  let run := for_each (df0 :: rest) (λ df, df_to_csv df path) w in
  run.2 = Ok ()
  ∧ fs run.1 !! path
    = Some (default "" (fs w !! path)
            +:+ (if isfile (fs w) path then "" else Pd.header_text df0)
            +:+ foldr (λ df acc, Pd.rows_text df +:+ acc) "" (df0 :: rest))
  ∧ ∀ other, other ≠ path → fs run.1 !! other = fs w !! other.
Proof.
  intros run. subst run. cbn [for_each]. rewrite M_bind_run. cbn [df_to_csv].
  match goal with |- context [for_each rest _ ?w1] =>
    destruct (df_to_csv_existing rest path
                (default "" (fs w !! path)
                 +:+ Pd.csv_text (negb (isfile (fs w) path)) df0) w1)
      as (w' & -> & Hnew & Hother) end.
  { cbn [fs]. apply df_to_csv_fs_lookup. }
  cbn [fst snd]. split; [done|]. split.
  - rewrite Hnew. cbn [foldr]. unfold Pd.csv_text.
    destruct (isfile (fs w) path); cbn [negb]; by rewrite !string_app_assoc.
  - intros other Hne. rewrite Hother by done. cbn [fs].
    by apply df_to_csv_fs_other.
Qed.

Lemma df_to_csv_sequence_witness :
  let run := for_each [Pd.of_list ["a"]; Pd.of_list ["b"; "c"]]
               (λ df, df_to_csv df "failed.csv") Demo.world in
  run.2 = Ok ()
  ∧ fs run.1 !! "failed.csv"
    = Some (default "" (fs Demo.world !! "failed.csv")
            +:+ (if isfile (fs Demo.world) "failed.csv" then ""
                 else Pd.header_text (Pd.of_list ["a"]))
            +:+ foldr (λ df acc, Pd.rows_text df +:+ acc) ""
                  [Pd.of_list ["a"]; Pd.of_list ["b"; "c"]])
  ∧ ∀ other, other ≠ "failed.csv" → fs run.1 !! other = fs Demo.world !! other.
Proof.
  exact (df_to_csv_sequence (Pd.of_list ["a"]) [Pd.of_list ["b"; "c"]]
           "failed.csv" Demo.world).
Defined.

(** ** Reshaping, branch by branch *)

Lemma filter_keep_all {A} (P : A → Prop) `{∀ x, Decision (P x)} (l : list A) :
  Forall P l → filter P l = l.
Proof.
  induction 1 as [|x l Hx _ IH]; [done|].
  by rewrite filter_cons_True, IH.
Qed.

Lemma filter_drop_all {A} (P : A → Prop) `{∀ x, Decision (P x)} (l : list A) :
  Forall (λ x, ¬ P x) l → filter P l = [].
Proof.
  induction 1 as [|x l Hx _ IH]; [done|].
  by rewrite filter_cons_False.
Qed.

Lemma elem_of_list_map {A B} (f : A → B) (l : list A) (y : B) :
  y ∈ map f l ↔ ∃ x, y = f x ∧ x ∈ l.
Proof.
  rewrite list_elem_of_In, in_map_iff. split.
  - intros (x & <- & Hin). exists x. by rewrite list_elem_of_In.
  - intros (x & -> & Hin). exists x. by rewrite <- list_elem_of_In.
Qed.

Lemma column_head c v cols name idx :
  Pd.column c (mkDataFrame name idx ((c, v) :: cols)) = Ok v.
Proof. unfold Pd.column. cbn. by rewrite decide_True. Qed.

(** The non-empty branch on a frame as the provider returns it: indexed
    by [date], with value columns followed by [isPartial], none of the
    value columns being labelled [date], [isPartial] or
    [search_interest].  The result has one row per date and value
    column, column by column: the dates repeated for each column, the
    column's label repeated for each date, and the values in order.  The
    arguments [keywords], [date_index] and [query_length] play no
    part. *)
Theorem handle_query_results_melts (df : DataFrame)
    (cols : list (label * list cell)) (partial : list cell)
    (keywords : list string) (date_index : option (list cell))
    (query_length : Z) :
  Pd.nrows df ≠ 0%nat →
  index_name df = Some (LStr "date") →
  columns df = cols ++ [(LStr "isPartial", partial)] →
  Forall (λ p, p.1 ≠ LStr "date" ∧ p.1 ≠ LStr "isPartial"
               ∧ p.1 ≠ LStr "search_interest") cols →
  handle_query_results df keywords date_index query_length
  = Ok (mkDataFrame None (Pd.range_index (Pd.nrows df * length cols))
          [ (LStr "date", p ← cols; index df);
            (LStr "keyword",
               p ← cols; replicate (Pd.nrows df) (Pd.cell_of_label p.1));
            (LStr "search_interest", p ← cols; p.2) ]).
Proof.
  intros Hrows Hname Hcols Hlabels.
  unfold handle_query_results, handle_query_results_in.
  destruct (Nat.eqb_spec (Pd.nrows df) 0); [done|]. cbn [negb].
  assert (∀ l, l = LStr "date" ∨ l = LStr "search_interest" →
               l ∉ Pd.labels df) as Hfresh.
  { intros l Hl. unfold Pd.labels. rewrite Hcols, map_app, elem_of_app.
    intros [Hin|Hin].
    - apply elem_of_list_map in Hin as (p & -> & Hin).
      rewrite Forall_forall in Hlabels.
      destruct (Hlabels p Hin) as (? & ? & ?). by destruct Hl.
    - cbn in Hin. apply list_elem_of_singleton in Hin. subst l.
      by destruct Hl. }
  unfold Pd.reset_index. rewrite Hname.
  rewrite bool_decide_eq_false_2 by (apply Hfresh; by left).
  cbn [mbind result_bind].
  unfold Pd.drop_columns. cbn [index_name index columns].
  rewrite filter_cons_False, filter_nil.
  2:{ intros Hnot. apply Hnot. unfold Pd.labels. cbn [columns map fst].
      rewrite Hcols, map_app. apply list_elem_of_further, elem_of_app. right.
      cbn. apply list_elem_of_here. }
  cbn [mbind result_bind].
  rewrite filter_cons_True by (cbn; by intros [=]%list_elem_of_singleton).
  rewrite Hcols, filter_app.
  rewrite (filter_keep_all _ cols).
  2:{ eapply Forall_impl; [exact Hlabels|]. intros p (_ & Hp & _).
      by intros ?%list_elem_of_singleton. }
  rewrite filter_cons_False by (cbn; intros Hnot; apply Hnot, list_elem_of_here).
  rewrite filter_nil, app_nil_r.
  replace (global module_globals "pd") with (Ok ()) by reflexivity.
  cbn [mbind result_bind]. unfold Pd.melt, Pd.labels. cbn [columns map fst].
  assert (∀ l, l = LStr "date" ∨ l = LStr "search_interest" →
               l ∉ map fst cols) as Hfresh'.
  { intros l Hl (p & -> & Hin)%elem_of_list_map.
    rewrite Forall_forall in Hlabels.
    destruct (Hlabels p Hin) as (? & ? & ?). by destruct Hl. }
  rewrite bool_decide_eq_false_2.
  2:{ intros [[=]|Hin]%elem_of_cons. revert Hin. apply Hfresh'. by right. }
  rewrite bool_decide_eq_false_2
    by (intros Hnot; apply Hnot, list_elem_of_here).
  rewrite column_head.
  cbn [mbind result_bind mret result_ret columns index].
  rewrite filter_cons_False by (cbn; by intros []).
  rewrite (filter_keep_all _ cols)
    by (eapply Forall_impl; [exact Hlabels|]; by intros p (? & _)).
  unfold Pd.nrows at 1 3. cbn [index]. by rewrite range_index_length.
Qed.

Lemma handle_query_results_melts_witness :
  let df := Demo.frame ["pizza"; "lufthansa"] in
  let cols := [ (LStr "pizza", [CInt 50; CInt 60]);
                (LStr "lufthansa", [CInt 50; CInt 60]) ] in
  Pd.nrows df ≠ 0%nat
  ∧ index_name df = Some (LStr "date")
  ∧ columns df = cols ++ [(LStr "isPartial", [CBool false; CBool true])]
  ∧ Forall (λ p, p.1 ≠ LStr "date" ∧ p.1 ≠ LStr "isPartial"
                 ∧ p.1 ≠ LStr "search_interest") cols
  ∧ handle_query_results df ["pizza"; "lufthansa"] None 261
    = Ok (mkDataFrame None (Pd.range_index (Pd.nrows df * length cols))
            [ (LStr "date", p ← cols; index df);
              (LStr "keyword",
                 p ← cols; replicate (Pd.nrows df) (Pd.cell_of_label p.1));
              (LStr "search_interest", p ← cols; p.2) ]).
Proof.
  intros df cols.
  assert (Pd.nrows df ≠ 0%nat) as H1 by discriminate.
  assert (index_name df = Some (LStr "date")) as H2 by reflexivity.
  assert (columns df = cols ++ [(LStr "isPartial", [CBool false; CBool true])])
    as H3 by reflexivity.
  assert (Forall (λ p, p.1 ≠ LStr "date" ∧ p.1 ≠ LStr "isPartial"
                         ∧ p.1 ≠ LStr "search_interest") cols) as H4
    by (repeat constructor; discriminate).
  do 4 (split; [assumption|]).
  exact (handle_query_results_melts df cols [CBool false; CBool true]
           ["pizza"; "lufthansa"] None 261 H1 H2 H3 H4).
Defined.

Lemma handle_query_results_nonempty df keywords date_index query_length :
  Pd.nrows df ≠ 0%nat →
  handle_query_results df keywords date_index query_length
  = (df_reset ← Pd.reset_index df;
     df_query_result_processed ← Pd.drop_columns [LStr "isPartial"] df_reset;
     Pd.melt df_query_result_processed "date" "keyword" "search_interest").
Proof.
  intros Hrows. unfold handle_query_results, handle_query_results_in.
  destruct (Nat.eqb_spec (Pd.nrows df) 0); [done|]. cbn [negb].
  destruct (Pd.reset_index df) as [df1|]; [|done]. cbn [mbind result_bind].
  by destruct (Pd.drop_columns _ df1).
Qed.

Lemma Forall_filter_keep {A} (P Q : A → Prop) `{∀ x, Decision (Q x)} (l : list A) :
  Forall P l → Forall P (filter Q l).
Proof.
  rewrite !Forall_forall. intros HP x [_ Hin]%list_elem_of_filter. by apply HP.
Qed.

(** A non-empty result without an [isPartial] column cannot be
    reshaped: dropping the column raises [KeyError], with the message
    of [DataFrame.drop]. *)
Theorem handle_query_results_without_isPartial (df : DataFrame)
    (keywords : list string) (date_index : option (list cell))
    (query_length : Z) :
  Pd.nrows df ≠ 0%nat →
  index_name df = Some (LStr "date") →
  LStr "date" ∉ Pd.labels df →
  LStr "isPartial" ∉ Pd.labels df →
  handle_query_results df keywords date_index query_length
  = Raise (KeyError "['isPartial'] not found in axis").
Proof.
  intros Hrows Hname Hdate Hpartial.
  rewrite handle_query_results_nonempty by done.
  unfold Pd.reset_index. rewrite Hname, bool_decide_eq_false_2 by done.
  cbn [mbind result_bind]. unfold Pd.drop_columns, Pd.labels.
  cbn [columns map fst].
  rewrite filter_cons_True, filter_nil; [done|].
  intros [[=]|Hin]%elem_of_cons. by apply Hpartial.
Qed.

Lemma handle_query_results_without_isPartial_witness :
  let df := mkDataFrame (Some (LStr "date")) [CTime "2020-01-05"]
              [(LStr "pizza", [CInt 50])] in
  Pd.nrows df ≠ 0%nat
  ∧ index_name df = Some (LStr "date")
  ∧ (LStr "date" ∉ Pd.labels df)
  ∧ (LStr "isPartial" ∉ Pd.labels df)
  ∧ handle_query_results df ["pizza"] None 261
    = Raise (KeyError "['isPartial'] not found in axis").
Proof.
  intros df.
  assert (Pd.nrows df ≠ 0%nat) as H1 by discriminate.
  assert (index_name df = Some (LStr "date")) as H2 by reflexivity.
  assert (LStr "date" ∉ Pd.labels df) as H3
    by (intros [=]%list_elem_of_singleton).
  assert (LStr "isPartial" ∉ Pd.labels df) as H4
    by (intros [=]%list_elem_of_singleton).
  do 4 (split; [assumption|]).
  exact (handle_query_results_without_isPartial df ["pizza"] None 261 H1 H2 H3 H4).
Defined.

(** A non-empty result whose index has no name cannot be reshaped
    either: the index lands in a column [index], and melting on [date]
    raises a [KeyError] (its message names the missing [date]; the
    wording differs between versions of pandas and is not stated). *)
Theorem handle_query_results_unnamed_index (df : DataFrame)
    (keywords : list string) (date_index : option (list cell))
    (query_length : Z) :
  Pd.nrows df ≠ 0%nat →
  index_name df = None →
  LStr "index" ∉ Pd.labels df →
  LStr "date" ∉ Pd.labels df →
  LStr "search_interest" ∉ Pd.labels df →
  LStr "isPartial" ∈ Pd.labels df →
  ∃ msg, handle_query_results df keywords date_index query_length
         = Raise (KeyError msg).
Proof.
  intros Hrows Hname Hindex Hdate Hvalue Hpartial.
  rewrite handle_query_results_nonempty by done.
  unfold Pd.reset_index. rewrite Hname.
  rewrite (bool_decide_eq_false_2 (LStr "index" ∈ Pd.labels df)) by done.
  rewrite bool_decide_eq_false_2 by done.
  cbn [mbind result_bind]. unfold Pd.drop_columns. cbn [index_name index columns].
  rewrite filter_cons_False, filter_nil
    by (intros Hnot; apply Hnot, list_elem_of_further; exact Hpartial).
  cbn [mbind result_bind].
  assert (∀ l, l ≠ LStr "index" → l ∉ Pd.labels df →
               l ∉ Pd.labels
                     (mkDataFrame None (Pd.range_index (Pd.nrows df))
                        (filter (λ p : label * list cell,
                                   p.1 ∉ [LStr "isPartial"])
                                ((LStr "index", index df) :: columns df))))
    as Hfresh.
  { intros l Hne Hl (p & -> & Hin)%elem_of_list_map. cbn [columns] in Hin.
    apply list_elem_of_filter in Hin as [_ Hin].
    apply elem_of_cons in Hin as [->|Hin]; [done|].
    apply Hl, elem_of_list_map. by exists p. }
  unfold Pd.melt.
  rewrite bool_decide_eq_false_2 by (by apply Hfresh).
  rewrite bool_decide_eq_true_2 by (by apply Hfresh).
  by eexists.
Qed.

Lemma handle_query_results_unnamed_index_witness :
  let df := mkDataFrame None [CTime "2020-01-05"]
              [(LStr "pizza", [CInt 50]); (LStr "isPartial", [CBool false])] in
  Pd.nrows df ≠ 0%nat
  ∧ index_name df = None
  ∧ (LStr "index" ∉ Pd.labels df)
  ∧ (LStr "date" ∉ Pd.labels df)
  ∧ (LStr "search_interest" ∉ Pd.labels df)
  ∧ (LStr "isPartial" ∈ Pd.labels df)
  ∧ ∃ msg, handle_query_results df ["pizza"] None 261 = Raise (KeyError msg).
Proof.
  intros df.
  assert (Pd.nrows df ≠ 0%nat) as H1 by discriminate.
  assert (index_name df = None) as H2 by reflexivity.
  assert (LStr "index" ∉ Pd.labels df) as H3
    by (intros [[=]|[=]%list_elem_of_singleton]%elem_of_cons).
  assert (LStr "date" ∉ Pd.labels df) as H4
    by (intros [[=]|[=]%list_elem_of_singleton]%elem_of_cons).
  assert (LStr "search_interest" ∉ Pd.labels df) as H5
    by (intros [[=]|[=]%list_elem_of_singleton]%elem_of_cons).
  assert (LStr "isPartial" ∈ Pd.labels df) as H6
    by (apply list_elem_of_further, list_elem_of_here).
  do 6 (split; [assumption|]).
  exact (handle_query_results_unnamed_index df ["pizza"] None 261
           H1 H2 H3 H4 H5 H6).
Defined.

(** A non-empty result with a value column labelled [date] (the keyword
    [date] was searched for) fails as soon as the index is reset, with
    the message of [DataFrame.insert]. *)
Theorem handle_query_results_date_keyword (df : DataFrame)
    (keywords : list string) (date_index : option (list cell))
    (query_length : Z) :
  Pd.nrows df ≠ 0%nat →
  index_name df = Some (LStr "date") →
  LStr "date" ∈ Pd.labels df →
  handle_query_results df keywords date_index query_length
  = Raise (ValueError "cannot insert date, already exists").
Proof.
  intros Hrows Hname Hdate.
  rewrite handle_query_results_nonempty by done.
  unfold Pd.reset_index. by rewrite Hname, bool_decide_eq_true_2.
Qed.

Lemma handle_query_results_date_keyword_witness :
  let df := Demo.frame ["date"] in
  Pd.nrows df ≠ 0%nat
  ∧ index_name df = Some (LStr "date")
  ∧ (LStr "date" ∈ Pd.labels df)
  ∧ handle_query_results df ["date"] None 261
    = Raise (ValueError "cannot insert date, already exists").
Proof.
  intros df.
  assert (Pd.nrows df ≠ 0%nat) as H1 by discriminate.
  assert (index_name df = Some (LStr "date")) as H2 by reflexivity.
  assert (LStr "date" ∈ Pd.labels df) as H3 by apply list_elem_of_here.
  do 3 (split; [assumption|]).
  exact (handle_query_results_date_keyword df ["date"] None 261 H1 H2 H3).
Defined.

(** Whenever [handle_query_results] returns, its input had rows and its
    output is a frame with a fresh index and exactly the columns [date],
    [keyword] and [search_interest], all of the same length. *)
Theorem handle_query_results_shape (df : DataFrame) (keywords : list string)
    (date_index : option (list cell)) (query_length : Z) (out : DataFrame) :
  handle_query_results df keywords date_index query_length = Ok out →
  Pd.nrows df ≠ 0%nat
  ∧ index_name out = None
  ∧ Pd.labels out = [LStr "date"; LStr "keyword"; LStr "search_interest"]
  ∧ (Forall (λ p, length p.2 = Pd.nrows df) (columns df) →
     Forall (λ p, length p.2 = Pd.nrows out) (columns out)).
Proof.
  intros Hout.
  destruct (decide (Pd.nrows df = 0%nat)) as [Hz|Hnz].
  { by rewrite handle_query_results_empty in Hout. }
  split; [done|].
  rewrite handle_query_results_nonempty in Hout by done.
  destruct (Pd.reset_index df) as [df1|] eqn:Hreset; [|done].
  cbn [mbind result_bind] in Hout.
  destruct (Pd.drop_columns _ df1) as [df2|] eqn:Hdrop; [|done].
  cbn [mbind result_bind] in Hout. unfold Pd.melt in Hout.
  do 2 (destruct (bool_decide _); [done|]).
  destruct (Pd.column _ df2) as [ids|] eqn:Hids; [|done].
  injection Hout as <-. split; [done|]. split; [done|].
  intros Hwf. unfold Pd.nrows in *. cbn [columns index].
  rewrite range_index_length.
  (* every column of [df2] has the length of [df] *)
  assert (Forall (λ p : label * list cell, length p.2 = length (index df))
            (columns df2)
          ∧ length (index df2) = length (index df)) as [Hwf2 Hrows2].
  { unfold Pd.reset_index in Hreset.
    destruct (bool_decide _); [done|]. injection Hreset as <-.
    unfold Pd.drop_columns in Hdrop.
    destruct (filter _ [LStr "isPartial"]); [|done].
    injection Hdrop as <-. cbn [columns index]. unfold Pd.nrows.
    rewrite range_index_length. split; [|done].
    apply Forall_filter_keep. by constructor. }
  assert (length ids = length (index df)) as Hlen.
  { unfold Pd.column in Hids.
    destruct (list_find _ _) as [[i [l v]]|] eqn:Hfind; [|done].
    injection Hids as ->. apply list_find_Some in Hfind as (Hi & _).
    rewrite Forall_lookup in Hwf2. exact (Hwf2 i _ Hi). }
  rewrite Hrows2.
  assert (Forall (λ p : label * list cell, length p.2 = length (index df))
            (filter (λ p : label * list cell, p.1 ≠ LStr "date") (columns df2)))
    as Hvals by by apply Forall_filter_keep.
  revert Hvals. generalize (filter (λ p : label * list cell, p.1 ≠ LStr "date")
                              (columns df2)).
  intros vals Hvals.
  repeat constructor; cbn [snd];
    induction Hvals as [|p vals Hp _ IH]; cbn [mbind list_bind length];
    rewrite ?length_app, ?length_replicate, ?IH, ?Hlen, ?Hp; lia.
Qed.

Lemma handle_query_results_shape_witness :
  let df := Demo.frame ["pizza"] in
  let out := mkDataFrame None (Pd.range_index 2)
               [ (LStr "date", [CTime "2020-01-05"; CTime "2020-01-12"]);
                 (LStr "keyword", [CStr "pizza"; CStr "pizza"]);
                 (LStr "search_interest", [CInt 50; CInt 60]) ] in
  handle_query_results df ["pizza"] None 261 = Ok out
  ∧ Pd.nrows df ≠ 0%nat
  ∧ index_name out = None
  ∧ Pd.labels out = [LStr "date"; LStr "keyword"; LStr "search_interest"]
  ∧ (Forall (λ p, length p.2 = Pd.nrows df) (columns df) →
     Forall (λ p, length p.2 = Pd.nrows out) (columns out)).
Proof.
  intros df out.
  assert (handle_query_results df ["pizza"] None 261 = Ok out) as H1
    by reflexivity.
  split; [exact H1|].
  exact (handle_query_results_shape df ["pizza"] None 261 out H1).
Defined.

(** ** Single queries *)

(** A call of [query_googletrends] opens exactly one session and changes
    nothing else in the world, whether it returns or raises. *)
Theorem query_googletrends_effects (env : Env) (keywords : list string)
    (date_index : option (list cell)) (timeframe : string) (w : World) :
  (query_googletrends env keywords date_index timeframe w).1
  = mkWorld (fs w) (S (sessions w)) (draws w) (slept w) (stdout w)
            (attempts w) (warnings w).
Proof.
  unfold query_googletrends, create_pytrends_session.
  rewrite M_bind_run. destruct (TrendReq env (sessions w)) as [pt|e]; [|done].
  rewrite !M_bind_run. unfold lift.
  destruct (build_payload pt _); [|done].
  rewrite !M_bind_run. by destruct (interest_over_time pt _).
Qed.

Lemma query_googletrends_result env keywords date_index timeframe w :
  (query_googletrends env keywords date_index timeframe w).2
  = (pt ← TrendReq env (sessions w);
     _ ← build_payload pt (mkPayload keywords 0 timeframe "");
     df ← interest_over_time pt (mkPayload keywords 0 timeframe "");
     handle_query_results df keywords date_index 261).
Proof.
  unfold query_googletrends, create_pytrends_session.
  rewrite M_bind_run. destruct (TrendReq env (sessions w)) as [pt|e]; [|done].
  rewrite !M_bind_run. unfold lift. cbn [mbind result_bind].
  destruct (build_payload pt _); [|done].
  rewrite !M_bind_run. cbn [mbind result_bind].
  by destruct (interest_over_time pt _).
Qed.

(** When the provider answers a query with a frame without rows,
    [query_googletrends] raises [NameError] instead of returning the
    frame of zeros. *)
Theorem query_googletrends_no_data (env : Env) (keywords : list string)
    (date_index : option (list cell)) (timeframe : string) (w : World)
    (pt : Session) (df : DataFrame) :
  TrendReq env (sessions w) = Ok pt →
  build_payload pt (mkPayload keywords 0 timeframe "") = Ok () →
  interest_over_time pt (mkPayload keywords 0 timeframe "") = Ok df →
  Pd.nrows df = 0%nat →
  (query_googletrends env keywords date_index timeframe w).2
  = Raise (NameError "np").
Proof.
  intros Hpt Hbuild Hquery Hrows.
  rewrite query_googletrends_result, Hpt. cbn [mbind result_bind].
  rewrite Hbuild. cbn [mbind result_bind]. rewrite Hquery.
  cbn [mbind result_bind]. by apply handle_query_results_empty.
Qed.

Lemma query_googletrends_no_data_witness :
  let w := mkWorld ∅ 1 0 0 [] [] [] in
  let payload := mkPayload ["f"; "g"] 0 "today 5-y" "" in
  TrendReq Demo.env_no_data (sessions w) = Ok Demo.silent
  ∧ build_payload Demo.silent payload = Ok ()
  ∧ interest_over_time Demo.silent payload = Ok Pd.empty
  ∧ Pd.nrows Pd.empty = 0%nat
  ∧ (query_googletrends Demo.env_no_data ["f"; "g"] None "today 5-y" w).2
    = Raise (NameError "np").
Proof.
  intros w payload. do 4 (split; [reflexivity|]).
  exact (query_googletrends_no_data Demo.env_no_data ["f"; "g"] None
           "today 5-y" w Demo.silent Pd.empty eq_refl eq_refl eq_refl eq_refl).
Defined.

(** [get_query_date_index] returns the index of the frame the provider
    answers the probe query with, provided no column of that frame is
    itself labelled [date]. *)
Theorem get_query_date_index_returns_index (env : Env) (timeframe : string)
    (w : World) (pt : Session) (df : DataFrame) :
  TrendReq env (sessions w) = Ok pt →
  build_payload pt (mkPayload ["pizza"; "lufthansa"] 0 timeframe "") = Ok () →
  interest_over_time pt (mkPayload ["pizza"; "lufthansa"] 0 timeframe "") = Ok df →
  LStr "date" ∉ Pd.labels df →
  (get_query_date_index env timeframe w).2 = Ok (index df).
Proof.
  intros Hpt Hbuild Hquery Hdate.
  unfold get_query_date_index, create_pytrends_session.
  rewrite M_bind_run, Hpt, !M_bind_run. unfold lift. rewrite Hbuild.
  rewrite !M_bind_run, Hquery. rewrite M_bind_run.
  unfold Pd.reset_index, Pd.rename_axis. cbn [index_name index columns Pd.labels].
  rewrite bool_decide_eq_false_2 by done. cbn [snd].
  by rewrite column_head.
Qed.

Lemma get_query_date_index_returns_index_witness :
  let payload := mkPayload ["pizza"; "lufthansa"] 0 "today 5-y" "" in
  let df := Demo.frame ["pizza"; "lufthansa"] in
  TrendReq Demo.env (sessions Demo.world) = Ok Demo.answering
  ∧ build_payload Demo.answering payload = Ok ()
  ∧ interest_over_time Demo.answering payload = Ok df
  ∧ (LStr "date" ∉ Pd.labels df)
  ∧ (get_query_date_index Demo.env "today 5-y" Demo.world).2 = Ok (index df).
Proof.
  intros payload df.
  assert (LStr "date" ∉ Pd.labels df) as Hdate.
  { intros Hin. repeat (apply elem_of_cons in Hin as [[=]|Hin]).
    by apply not_elem_of_nil in Hin. }
  do 3 (split; [reflexivity|]). split; [exact Hdate|].
  exact (get_query_date_index_returns_index Demo.env "today 5-y" Demo.world
           Demo.answering df eq_refl eq_refl eq_refl Hdate).
Defined.

(** [timestamp_now] reads the name [strftime], which the module never
    binds: every call raises [NameError]. *)
Theorem timestamp_now_raises (now : DateTime) :
  timestamp_now now = Raise (NameError "strftime").
Proof. reflexivity. Qed.

(** ** Whole runs *)

Section Runs.

Context (env : Env) (filepath filepath_unsuccessful : string)
        (max_retries : Z) (date_index : list cell).

(** A relation between worlds that every batch keeps is kept by the
    whole loop. *)
Lemma process_batches_preserves (R : World → World → Prop) :
  (∀ w, R w w) →
  (∀ w1 w2 w3, R w1 w2 → R w2 w3 → R w1 w3) →
  (∀ b t w,
     R w (process_batch env filepath filepath_unsuccessful max_retries
            date_index b t w).1) →
  ∀ kw_batches t w,
    R w (process_batches env filepath filepath_unsuccessful max_retries
           date_index kw_batches t w).1.
Proof.
  intros Hrefl Htrans Hstep kw_batches.
  induction kw_batches as [|b rest IH]; intros t w; [apply Hrefl|].
  cbn [process_batches]. rewrite M_bind_run.
  specialize (Hstep b t w).
  destruct (process_batch_spec env filepath filepath_unsuccessful max_retries
              date_index b t w) as (w1 & atts & Hrun & _).
  rewrite Hrun in Hstep |- *. cbn [fst] in Hstep.
  eapply Htrans; [exact Hstep|apply IH].
Qed.

(** One batch writes to at most one of the two files, and only by
    [df_to_csv]. *)
Lemma process_batch_files b t w :
  let w' := (process_batch env filepath filepath_unsuccessful max_retries
               date_index b t w).1 in
  ∃ df target,
    (target = filepath ∨ target = filepath_unsuccessful)
    ∧ fs w' = df_to_csv_fs df target (fs w).
Proof.
  intros w'. subst w'.
  destruct (process_batch_spec env filepath filepath_unsuccessful max_retries
              date_index b t w) as (w1 & atts & -> & _ & _ & _ & _ & Hcase).
  cbn [fst].
  destruct Hcase as [(_ & _ & df & _ & _ & _ & _ & _ & _ & Hfs & _)|(_ & _ & Hfs & _)].
  - exists df, filepath. by split; [left|].
  - exists (Pd.of_list b), filepath_unsuccessful. by split; [right|].
Qed.

(** The outcome of the loop, batch by batch: the attempts, a witness
    query for every batch that got through, the warnings for the others,
    and the main file left alone when none got through. *)
Lemma process_batches_outcome kw_batches :
  ∀ timeout w, ∃ w' t' per_batch,
    process_batches env filepath filepath_unsuccessful max_retries date_index
      kw_batches timeout w = (w', Ok t')
    ∧ attempts w' = attempts w ++ concat per_batch
    ∧ Forall2 (λ b atts,
                 batch_attempts (Z.to_nat max_retries) b atts
                 ∧ (Forall failed atts → length atts = Z.to_nat max_retries)
                 ∧ (¬ Forall failed atts →
                    ∃ w1 w2 df,
                      query_googletrends env b (Some date_index) "today 5-y" w1
                      = (w2, Ok df)))
        kw_batches per_batch
    ∧ warnings w'
      = warnings w
        ++ (filter (λ p, Forall failed p.2) (zip kw_batches per_batch)).*1
    ∧ (filepath ≠ filepath_unsuccessful →
       Forall (Forall failed) per_batch →
       fs w' !! filepath = fs w !! filepath).
Proof.
  induction kw_batches as [|b rest IH]; intros timeout w.
  - exists w, timeout, []. cbn. rewrite !app_nil_r. by repeat split.
  - cbn [process_batches]. rewrite M_bind_run.
    destruct (process_batch_spec env filepath filepath_unsuccessful max_retries
                date_index b timeout w)
      as (w1 & atts & -> & Hat & Hb & _ & Hlen & Hcase).
    destruct (IH (timeout_after timeout atts) w1)
      as (w' & t' & per_batch & -> & Hat' & HF & Hwa' & Hfs').
    exists w', t', (atts :: per_batch). split; [done|].
    split; [cbn [concat]; by rewrite Hat', Hat, <- app_assoc|].
    assert (∀ i a, atts !! i = Some a → att_ok a = true → S i = length atts)
      as Hlast.
    { intros i a Hi Hok.
      destruct Hcase as [(fails & a' & _ & _ & _ & -> & Hf & _)|(Hf & _)].
      - rewrite length_app. cbn [length].
        destruct (decide (i < length fails)%nat) as [Hlt|Hge].
        + rewrite lookup_app_l in Hi by done.
          eapply Forall_lookup_1 in Hf; [|exact Hi]. unfold failed in Hf.
          congruence.
        + apply lookup_lt_Some in Hi. rewrite length_app in Hi. cbn in Hi. lia.
      - eapply Forall_lookup_1 in Hf; [|exact Hi]. unfold failed in Hf.
        congruence. }
    destruct Hcase as [(fails & a & df & wa & wb & -> & Hf & Hok & Hq & Hfs & Hwa)
                      |(Hf & Hl & Hfs & Hwa)].
    + assert (¬ Forall failed (fails ++ [a])) as Hnot
        by (intros Hall; exact (failed_not_ok fails a [] Hall Hok)).
      split.
      { constructor; [|done]. split; [done|]. split; [done|].
        intros _. by exists wa, wb, df. }
      split.
      { cbn [zip zip_with]. rewrite filter_cons_False by done.
        by rewrite Hwa', Hwa. }
      intros _ Hall. apply Forall_cons in Hall as [Hall _]. done.
    + split.
      { constructor; [|done]. split; [done|]. split; [done|]. done. }
      split.
      { cbn [zip zip_with]. rewrite filter_cons_True by done.
        cbn [fmap list_fmap fst]. by rewrite Hwa', Hwa, <- app_assoc. }
      intros Hne Hall. apply Forall_cons in Hall as [_ Hall].
      rewrite Hfs' by done. rewrite Hfs. by apply df_to_csv_fs_other.
Qed.

End Runs.

Section RunTheorems.

Context (env : Env) (keyword_list : list string)
        (filepath filepath_unsuccessful timeframe : string)
        (max_retries timeout : Z).

Lemma get_interest_over_time_files (R : World → World → Prop) w :
  (∀ w, R w w) →
  (∀ w1 w2 w3, R w1 w2 → R w2 w3 → R w1 w3) →
  (∀ w1 w2, fs w2 = fs w1 → R w1 w2) →
  (∀ df target w1 w2,
     target = filepath ∨ target = filepath_unsuccessful →
     fs w2 = df_to_csv_fs df target (fs w1) → R w1 w2) →
  R w (get_interest_over_time env keyword_list filepath filepath_unsuccessful
         timeframe max_retries timeout w).1.
Proof.
  intros Hrefl Htrans Hsame Hwrite.
  destruct (get_interest_over_time_run env keyword_list filepath
              filepath_unsuccessful timeframe max_retries timeout w)
    as (w0 & batches & (Hfs0 & _) & _
        & [(e & _ & ->)|(di & w' & t' & _ & Hp & ->)]); cbn [fst].
  { by apply Hsame. }
  apply (Htrans _ w0); [by apply Hsame|].
  replace w' with (process_batches env filepath filepath_unsuccessful
                     max_retries di batches timeout w0).1 by by rewrite Hp.
  apply process_batches_preserves; [done..|].
  intros b t w1.
  destruct (process_batch_files env filepath filepath_unsuccessful max_retries
              di b t w1) as (df & target & Htarget & Hfs).
  by eapply Hwrite.
Qed.

End RunTheorems.

(** If the probe for the date index raises, the run raises the same
    exception, and nothing has been queried, written or logged. *)
Theorem get_interest_over_time_raises_with_probe (env : Env)
    (keyword_list : list string)
    (filepath filepath_unsuccessful timeframe : string)
    (max_retries timeout : Z) (w : World) (e : exn) :
  let probe := get_query_date_index env timeframe w in
  let run := get_interest_over_time env keyword_list filepath
               filepath_unsuccessful timeframe max_retries timeout w in
  probe.2 = Raise e →
  run.2 = Raise e
  ∧ run.1 = probe.1 ∧ fs run.1 = fs w ∧ attempts run.1 = attempts w
  ∧ warnings run.1 = warnings w.
Proof.
  intros probe run. subst probe run.
  destruct (get_interest_over_time_run env keyword_list filepath
              filepath_unsuccessful timeframe max_retries timeout w)
    as (w0 & batches & (Hfs & Hat & Hwa) & _
        & [(e' & -> & ->)|(di & w' & t' & -> & _ & ->)]); cbn [fst snd].
  - by intros [= <-].
  - discriminate.
Qed.

Lemma get_interest_over_time_raises_with_probe_witness :
  let probe := get_query_date_index Demo.env_offline "today 5-y" Demo.world in
  let run := get_interest_over_time Demo.env_offline Demo.keywords "out.csv"
               "failed.csv" "today 5-y" 3 20 Demo.world in
  probe.2 = Raise (ResponseError "offline")
  ∧ run.2 = Raise (ResponseError "offline")
  ∧ run.1 = probe.1 ∧ fs run.1 = fs Demo.world
  ∧ attempts run.1 = attempts Demo.world
  ∧ warnings run.1 = warnings Demo.world.
Proof.
  intros probe run.
  assert (probe.2 = Raise (ResponseError "offline")) as Hprobe by reflexivity.
  split; [exact Hprobe|].
  exact (get_interest_over_time_raises_with_probe Demo.env_offline Demo.keywords
           "out.csv" "failed.csv" "today 5-y" 3 20 Demo.world
           (ResponseError "offline") Hprobe).
Defined.

(** A run touches no file other than the two it is given. *)
Theorem get_interest_over_time_other_files (env : Env)
    (keyword_list : list string)
    (filepath filepath_unsuccessful timeframe : string)
    (max_retries timeout : Z) (w : World) (path : string) :
  path ≠ filepath → path ≠ filepath_unsuccessful →
  fs (get_interest_over_time env keyword_list filepath filepath_unsuccessful
        timeframe max_retries timeout w).1 !! path
  = fs w !! path.
Proof.
  intros Hne1 Hne2.
  apply (get_interest_over_time_files env keyword_list filepath
           filepath_unsuccessful timeframe max_retries timeout
           (λ w1 w2, fs w2 !! path = fs w1 !! path)).
  - done.
  - intros w1 w2 w3 H12 H23. by rewrite H23.
  - by intros w1 w2 ->.
  - intros df target w1 w2 [-> | ->] ->; by apply df_to_csv_fs_other.
Qed.

Lemma get_interest_over_time_other_files_witness :
  let w := mkWorld {[ "notes.txt" := "keep" ]} 0 0 0 [] [] [] in
  "notes.txt" ≠ "out.csv" ∧ "notes.txt" ≠ "failed.csv"
  ∧ fs (get_interest_over_time Demo.env Demo.keywords "out.csv" "failed.csv"
          "today 5-y" 3 20 w).1 !! "notes.txt"
    = fs w !! "notes.txt".
Proof.
  intros w.
  assert ("notes.txt" ≠ "out.csv") as H1 by discriminate.
  assert ("notes.txt" ≠ "failed.csv") as H2 by discriminate.
  split; [exact H1|]. split; [exact H2|].
  exact (get_interest_over_time_other_files Demo.env Demo.keywords "out.csv"
           "failed.csv" "today 5-y" 3 20 w "notes.txt" H1 H2).
Defined.

(** A run only ever appends: whatever a file held before the run is
    still the beginning of what it holds afterwards. *)
Theorem get_interest_over_time_appends (env : Env)
    (keyword_list : list string)
    (filepath filepath_unsuccessful timeframe : string)
    (max_retries timeout : Z) (w : World) (path old : string) :
  fs w !! path = Some old →
  ∃ suffix,
    fs (get_interest_over_time env keyword_list filepath filepath_unsuccessful
          timeframe max_retries timeout w).1 !! path
    = Some (old +:+ suffix).
Proof.
  revert old.
  apply (get_interest_over_time_files env keyword_list filepath
           filepath_unsuccessful timeframe max_retries timeout
           (λ w1 w2, ∀ old, fs w1 !! path = Some old →
                            ∃ suffix, fs w2 !! path = Some (old +:+ suffix))).
  - intros w1 old Hold. exists "". by rewrite string_app_empty_r.
  - intros w1 w2 w3 H12 H23 old Hold.
    destruct (H12 old Hold) as (s1 & H2). destruct (H23 _ H2) as (s2 & H3).
    exists (s1 +:+ s2). by rewrite H3, string_app_assoc.
  - intros w1 w2 -> old Hold. exists "". by rewrite string_app_empty_r.
  - intros df target w1 w2 _ -> old Hold.
    destruct (decide (target = path)) as [->|Hne].
    + rewrite df_to_csv_fs_lookup, Hold. by eexists.
    + rewrite df_to_csv_fs_other by done. exists "".
      by rewrite string_app_empty_r.
Qed.

Lemma get_interest_over_time_appends_witness :
  let w := mkWorld {[ "out.csv" := "date,keyword,search_interest" ]}
             0 0 0 [] [] [] in
  fs w !! "out.csv" = Some "date,keyword,search_interest"
  ∧ ∃ suffix,
      fs (get_interest_over_time Demo.env Demo.keywords "out.csv" "failed.csv"
            "today 5-y" 3 20 w).1 !! "out.csv"
      = Some ("date,keyword,search_interest" +:+ suffix).
Proof.
  intros w.
  assert (fs w !! "out.csv" = Some "date,keyword,search_interest") as Hold
    by reflexivity.
  split; [exact Hold|].
  exact (get_interest_over_time_appends Demo.env Demo.keywords "out.csv"
           "failed.csv" "today 5-y" 3 20 w "out.csv"
           "date,keyword,search_interest" Hold).
Defined.

(** The whole run, batch by batch, once the probe has returned. *)
Lemma get_interest_over_time_outcome env keyword_list filepath
    filepath_unsuccessful timeframe max_retries timeout w :
  let run := get_interest_over_time env keyword_list filepath
               filepath_unsuccessful timeframe max_retries timeout w in
  run.2 = Ok () →
  ∃ date_index batches per_batch,
    list_batch keyword_list 5 = Ok batches
    ∧ attempts run.1 = attempts w ++ concat per_batch
    ∧ Forall2 (λ b atts,
                 batch_attempts (Z.to_nat max_retries) b atts
                 ∧ (Forall failed atts → length atts = Z.to_nat max_retries)
                 ∧ (¬ Forall failed atts →
                    ∃ w1 w2 df,
                      query_googletrends env b (Some date_index) "today 5-y" w1
                      = (w2, Ok df)))
        batches per_batch
    ∧ warnings run.1
      = warnings w ++ (filter (λ p, Forall failed p.2) (zip batches per_batch)).*1
    ∧ (filepath ≠ filepath_unsuccessful →
       Forall (Forall failed) per_batch →
       fs run.1 !! filepath = fs w !! filepath).
Proof.
  intros run Hok. subst run.
  destruct (get_interest_over_time_run env keyword_list filepath
              filepath_unsuccessful timeframe max_retries timeout w)
    as (w0 & batches & (Hfs & Hat & Hwa) & Hb
        & [(e & _ & Hrun)|(di & w' & t' & _ & Hp & Hrun)]);
    rewrite Hrun in Hok |- *; [done|]. cbn [fst].
  destruct (process_batches_outcome env filepath filepath_unsuccessful
              max_retries di batches timeout w0)
    as (w'' & t'' & per_batch & Hp' & Hat' & HF & Hwa' & Hfs').
  rewrite Hp in Hp'. injection Hp' as <- <-.
  exists di, batches, per_batch. rewrite Hat', Hwa', Hat, Hwa.
  do 4 (split; [done|]). intros Hne Hall. by rewrite Hfs', Hfs.
Qed.

(** After a run that returned, the batches reported by
    [logging.warning] are, in order, exactly the batches none of whose
    attempts succeeded. *)
Theorem warnings_are_failed_batches (env : Env) (keyword_list : list string)
    (filepath filepath_unsuccessful timeframe : string)
    (max_retries timeout : Z) (w : World) :
  let run := get_interest_over_time env keyword_list filepath
               filepath_unsuccessful timeframe max_retries timeout w in
  run.2 = Ok () →
  ∃ batches per_batch,
    list_batch keyword_list 5 = Ok batches
    ∧ attempts run.1 = attempts w ++ concat per_batch
    ∧ Forall2 (λ b atts, Forall (λ a, att_batch a = b) atts) batches per_batch
    ∧ warnings run.1
      = warnings w ++ (filter (λ p, Forall failed p.2) (zip batches per_batch)).*1.
Proof.
  intros run Hok.
  destruct (get_interest_over_time_outcome env keyword_list filepath
              filepath_unsuccessful timeframe max_retries timeout w Hok)
    as (di & batches & per_batch & Hb & Hat & HF & Hwa & _).
  exists batches, per_batch. do 2 (split; [done|]). split; [|done].
  eapply Forall2_impl; [exact HF|]. by intros b atts ((? & _) & _).
Qed.

Lemma warnings_are_failed_batches_witness :
  let run := get_interest_over_time Demo.env Demo.keywords "out.csv"
               "failed.csv" "today 5-y" 3 20 Demo.world in
  run.2 = Ok ()
  ∧ ∃ batches per_batch,
      list_batch Demo.keywords 5 = Ok batches
      ∧ attempts run.1 = attempts Demo.world ++ concat per_batch
      ∧ Forall2 (λ b atts, Forall (λ a, att_batch a = b) atts) batches per_batch
      ∧ warnings run.1
        = warnings Demo.world
          ++ (filter (λ p, Forall failed p.2) (zip batches per_batch)).*1.
Proof.
  intros run.
  assert (run.2 = Ok ()) as Hok by (vm_compute; reflexivity).
  split; [exact Hok|].
  exact (warnings_are_failed_batches Demo.env Demo.keywords "out.csv"
           "failed.csv" "today 5-y" 3 20 Demo.world Hok).
Defined.

(** With [max_retries] zero or negative no query is ever made for a
    batch: every batch is reported as unsuccessful and the main file is
    not touched. *)
Theorem no_retries_no_queries (env : Env) (keyword_list : list string)
    (filepath filepath_unsuccessful timeframe : string)
    (max_retries timeout : Z) (w : World) :
  let run := get_interest_over_time env keyword_list filepath
               filepath_unsuccessful timeframe max_retries timeout w in
  max_retries ≤ 0 →
  filepath ≠ filepath_unsuccessful →
  run.2 = Ok () →
  attempts run.1 = attempts w
  ∧ (∃ batches, list_batch keyword_list 5 = Ok batches
                ∧ warnings run.1 = warnings w ++ batches)
  ∧ fs run.1 !! filepath = fs w !! filepath.
Proof.
  intros run Hmr Hne Hok.
  destruct (get_interest_over_time_outcome env keyword_list filepath
              filepath_unsuccessful timeframe max_retries timeout w Hok)
    as (di & batches & per_batch & Hb & Hat & HF & Hwa & Hfs).
  fold run in Hat, Hwa, Hfs.
  assert (Forall (λ atts, atts = []) per_batch) as Hnil.
  { clear -HF Hmr. induction HF as [|b atts bs per ((_ & Hlen & _) & _) _ IH];
      constructor; [|done].
    destruct atts; [done|]. cbn in Hlen. lia. }
  assert (concat per_batch = []) as Hconcat.
  { clear -Hnil. induction Hnil as [|? ? -> _ IH]; [done|]. done. }
  assert ((filter (λ p : list string * list Attempt, Forall failed p.2)
             (zip batches per_batch)).*1 = batches) as Hall.
  { clear -HF Hnil. induction HF as [|b atts bs per _ _ IH]; [done|].
    apply Forall_cons in Hnil as [-> Hnil]. cbn [zip zip_with].
    rewrite filter_cons_True by constructor. cbn [fmap list_fmap fst].
    f_equal. by apply IH. }
  rewrite Hat, Hconcat, app_nil_r. split; [done|].
  split; [exists batches; by rewrite Hwa, Hall|]. apply Hfs; [done|].
  eapply Forall_impl; [exact Hnil|]. intros atts ->. constructor.
Qed.

Lemma no_retries_no_queries_witness :
  let run := get_interest_over_time Demo.env Demo.keywords "out.csv"
               "failed.csv" "today 5-y" 0 20 Demo.world in
  0 ≤ 0
  ∧ "out.csv" ≠ "failed.csv"
  ∧ run.2 = Ok ()
  ∧ attempts run.1 = attempts Demo.world
  ∧ (∃ batches, list_batch Demo.keywords 5 = Ok batches
                ∧ warnings run.1 = warnings Demo.world ++ batches)
  ∧ fs run.1 !! "out.csv" = fs Demo.world !! "out.csv".
Proof.
  intros run.
  assert (0 ≤ 0) as Hmr by lia.
  assert ("out.csv" ≠ "failed.csv") as Hne by discriminate.
  assert (run.2 = Ok ()) as Hok by (vm_compute; reflexivity).
  do 3 (split; [assumption|]).
  exact (no_retries_no_queries Demo.env Demo.keywords "out.csv" "failed.csv"
           "today 5-y" 0 20 Demo.world Hmr Hne Hok).
Defined.

Lemma query_googletrends_ok_rows env keywords date_index timeframe w1 w2 out :
  query_googletrends env keywords date_index timeframe w1 = (w2, Ok out) →
  ∃ pt df,
    TrendReq env (sessions w1) = Ok pt
    ∧ interest_over_time pt (mkPayload keywords 0 timeframe "") = Ok df
    ∧ Pd.nrows df ≠ 0%nat.
Proof.
  intros Hq. apply (f_equal snd) in Hq. cbn [snd] in Hq.
  rewrite query_googletrends_result in Hq.
  destruct (TrendReq env (sessions w1)) as [pt|] eqn:Hpt;
    cbn [mbind result_bind] in Hq; [|done].
  destruct (build_payload pt _); cbn [mbind result_bind] in Hq; [|done].
  destruct (interest_over_time pt _) as [df|] eqn:Hdf;
    cbn [mbind result_bind] in Hq; [|done].
  exists pt, df. do 2 (split; [done|]). intros Hrows.
  by rewrite handle_query_results_empty in Hq.
Qed.

(** If the provider has data for none of the batches (every frame it
    answers them with is empty), then a run that returns has used up
    [max_retries] failed attempts on every batch, has reported every
    batch as unsuccessful, and has written nothing to the main file. *)
Theorem no_data_batches_unsuccessful (env : Env) (keyword_list : list string)
    (filepath filepath_unsuccessful timeframe : string)
    (max_retries timeout : Z) (w : World) (batches : list (list string)) :
  let run := get_interest_over_time env keyword_list filepath
               filepath_unsuccessful timeframe max_retries timeout w in
  list_batch keyword_list 5 = Ok batches →
  (∀ b n pt df,
     b ∈ batches → TrendReq env n = Ok pt →
     interest_over_time pt (mkPayload b 0 "today 5-y" "") = Ok df →
     Pd.nrows df = 0%nat) →
  filepath ≠ filepath_unsuccessful →
  run.2 = Ok () →
  (∃ new, attempts run.1 = attempts w ++ new
          ∧ Forall failed new
          ∧ length new = (Z.to_nat max_retries * length batches)%nat)
  ∧ warnings run.1 = warnings w ++ batches
  ∧ fs run.1 !! filepath = fs w !! filepath.
Proof.
  intros run Hb Hnodata Hne Hok.
  destruct (get_interest_over_time_outcome env keyword_list filepath
              filepath_unsuccessful timeframe max_retries timeout w Hok)
    as (di & batches' & per_batch & Hb' & Hat & HF & Hwa & Hfs).
  fold run in Hat, Hwa, Hfs.
  rewrite Hb in Hb'. injection Hb' as <-.
  assert (Forall2 (λ (b : list string) atts,
                     Forall failed atts ∧ length atts = Z.to_nat max_retries)
            batches per_batch) as HF'.
  { assert (∀ bs : list (list string), (∀ b, b ∈ bs → b ∈ batches) →
              Forall2 (λ b atts,
                 batch_attempts (Z.to_nat max_retries) b atts
                 ∧ (Forall failed atts → length atts = Z.to_nat max_retries)
                 ∧ (¬ Forall failed atts →
                    ∃ w1 w2 df,
                      query_googletrends env b (Some di) "today 5-y" w1
                      = (w2, Ok df)))
                bs per_batch →
              Forall2 (λ (b : list string) atts,
                 Forall failed atts ∧ length atts = Z.to_nat max_retries)
                bs per_batch) as Hgen; [|by apply Hgen].
    clear -Hnodata. intros bs Hin HF2.
    induction HF2 as [|b atts bs' per (_ & Hlen & Hq) _ IH]; [constructor|].
    constructor.
    - destruct (decide (Forall failed atts)) as [Hall|Hnot]; [by auto|].
      destruct (Hq Hnot) as (w1 & w2 & out & Hrun).
      apply query_googletrends_ok_rows in Hrun as (pt & df & Hpt & Hdf & Hrows).
      destruct Hrows. eapply Hnodata; [|exact Hpt|exact Hdf].
      apply Hin, list_elem_of_here.
    - apply IH. intros b' Hb'. by apply Hin, list_elem_of_further. }
  assert (Forall (Forall failed) per_batch) as Hall.
  { clear -HF'. induction HF' as [|???? [? _] _ IH]; by constructor. }
  split; [|split].
  - exists (concat per_batch). split; [done|]. split; [by apply Forall_concat|].
    clear -HF'. induction HF' as [|b atts bs per [_ Hlen] _ IH]; [cbn; lia|].
    cbn [concat length]. rewrite length_app, IH, Hlen. lia.
  - rewrite Hwa. f_equal.
    clear -HF'. induction HF' as [|b atts bs per [Hf _] _ IH]; [done|].
    cbn [zip zip_with]. rewrite filter_cons_True by done.
    cbn [fmap list_fmap fst]. f_equal. exact IH.
  - by apply Hfs.
Qed.

Lemma no_data_batches_unsuccessful_witness :
  let run := get_interest_over_time Demo.env_probe_only Demo.keywords "out.csv"
               "failed.csv" "today 5-y" 3 20 Demo.world in
  let batches := [["a"; "b"; "c"; "d"; "e"]; ["f"; "g"]] in
  list_batch Demo.keywords 5 = Ok batches
  ∧ (∀ b n pt df,
       b ∈ batches → TrendReq Demo.env_probe_only n = Ok pt →
       interest_over_time pt (mkPayload b 0 "today 5-y" "") = Ok df →
       Pd.nrows df = 0%nat)
  ∧ "out.csv" ≠ "failed.csv"
  ∧ run.2 = Ok ()
  ∧ (∃ new, attempts run.1 = attempts Demo.world ++ new
            ∧ Forall failed new
            ∧ length new = (Z.to_nat 3 * length batches)%nat)
  ∧ warnings run.1 = warnings Demo.world ++ batches
  ∧ fs run.1 !! "out.csv" = fs Demo.world !! "out.csv".
Proof.
  intros run batches.
  assert (list_batch Demo.keywords 5 = Ok batches) as Hb by reflexivity.
  assert (∀ b n pt df,
            b ∈ batches → TrendReq Demo.env_probe_only n = Ok pt →
            interest_over_time pt (mkPayload b 0 "today 5-y" "") = Ok df →
            Pd.nrows df = 0%nat) as Hnodata.
  { intros b n pt df Hin [= <-] Hdf.
    apply elem_of_cons in Hin as [->|Hin];
      [|apply list_elem_of_singleton in Hin as ->];
      by injection Hdf as <-. }
  assert ("out.csv" ≠ "failed.csv") as Hne by discriminate.
  assert (run.2 = Ok ()) as Hok by (vm_compute; reflexivity).
  do 4 (split; [assumption|]).
  exact (no_data_batches_unsuccessful Demo.env_probe_only Demo.keywords
           "out.csv" "failed.csv" "today 5-y" 3 20 Demo.world batches
           Hb Hnodata Hne Hok).
Defined.

(** With no keywords a run consists of the probe for the date index and
    nothing else. *)
Theorem empty_keyword_list_only_probes (env : Env)
    (filepath filepath_unsuccessful timeframe : string)
    (max_retries timeout : Z) (w : World) :
  let probe := get_query_date_index env timeframe w in
  let run := get_interest_over_time env [] filepath filepath_unsuccessful
               timeframe max_retries timeout w in
  run = (probe.1, probe.2 ≫= λ _, Ok ())
  ∧ fs run.1 = fs w ∧ attempts run.1 = attempts w
  ∧ warnings run.1 = warnings w.
Proof.
  intros probe run. subst probe run.
  unfold get_interest_over_time. rewrite M_bind_run.
  destruct (get_query_date_index env timeframe w) as [w0 r] eqn:Hprobe.
  apply get_query_date_index_untouched in Hprobe as (Hfs & Hat & Hwa).
  cbn [fst snd]. by destruct r.
Qed.

(** ** Frames of related queries *)

Lemma column_cons c c' v cols name idx :
  Pd.column c (mkDataFrame name idx ((c', v) :: cols))
  = if decide (c' = c) then Ok v else Pd.column c (mkDataFrame name idx cols).
Proof.
  unfold Pd.column. cbn [columns list_find fst].
  destruct (decide (c' = c)); [done|].
  by destruct (list_find _ cols) as [[? [? ?]]|].
Qed.

Lemma column_of_columns c df :
  Pd.column c df = Pd.column c (mkDataFrame None [] (columns df)).
Proof. reflexivity. Qed.

Lemma set_scalar_rows c v df :
  Pd.nrows (Pd.set_scalar c v df) = Pd.nrows df
  ∧ index (Pd.set_scalar c v df) = index df.
Proof. unfold Pd.set_scalar. by destruct (bool_decide _). Qed.

Lemma set_scalar_same c v df :
  Pd.column c (Pd.set_scalar c v df) = Ok (replicate (Pd.nrows df) v).
Proof.
  unfold Pd.set_scalar, Pd.labels. rewrite column_of_columns.
  generalize (replicate (Pd.nrows df) v). intros col.
  destruct (bool_decide_reflect (c ∈ map fst (columns df))) as [Hin|Hnot];
    cbn [columns].
  - induction (columns df) as [|[c' v'] cols IH]; [by apply elem_of_nil in Hin|].
    cbn [map fst]. destruct (bool_decide_reflect (c' = c)) as [->|Hne]; cbv iota.
    + by rewrite column_cons, decide_True.
    + rewrite column_cons, decide_False by done. apply IH.
      cbn [map fst] in Hin. by apply elem_of_cons in Hin as [->|Hin].
  - induction (columns df) as [|[c' v'] cols IH].
    + cbn [app]. by rewrite column_cons, decide_True.
    + cbn [app]. rewrite column_cons, decide_False.
      * apply IH. intros Hin. apply Hnot. cbn [map fst].
        by apply list_elem_of_further.
      * intros ->. apply Hnot. cbn [map fst]. apply list_elem_of_here.
Qed.

Lemma set_scalar_other c c' v df :
  c' ≠ c → Pd.column c' (Pd.set_scalar c v df) = Pd.column c' df.
Proof.
  intros Hne. unfold Pd.set_scalar.
  rewrite column_of_columns, (column_of_columns c' df).
  generalize (replicate (Pd.nrows df) v). intros col.
  destruct (bool_decide _); cbn [columns].
  - induction (columns df) as [|[c0 v0] cols IH]; [done|].
    cbn [map fst]. destruct (bool_decide_reflect (c0 = c)) as [->|Hne0]; cbv iota.
    + by rewrite !column_cons, !decide_False, IH by done.
    + rewrite !column_cons. by destruct (decide (c0 = c')).
  - induction (columns df) as [|[c0 v0] cols IH].
    + cbn [app]. by rewrite column_cons, decide_False.
    + cbn [app]. rewrite !column_cons. by destruct (decide (c0 = c')).
Qed.

Lemma set_scalar_labels c v df l :
  l ∈ Pd.labels (Pd.set_scalar c v df) ↔ l = c ∨ l ∈ Pd.labels df.
Proof.
  unfold Pd.set_scalar, Pd.labels.
  destruct (bool_decide_reflect (c ∈ map fst (columns df))) as [Hin|Hnot];
    cbn [columns].
  - rewrite map_map.
    assert (map (λ p : label * list cell,
                   (if bool_decide (p.1 = c)
                    then (c, replicate (Pd.nrows df) v) else p).1) (columns df)
            = map fst (columns df)) as ->.
    { apply map_ext. intros [c0 v0]. cbn [fst].
      by destruct (bool_decide_reflect (c0 = c)) as [->|]. }
    split; [by right|]. by intros [->|].
  - rewrite map_app, elem_of_app. cbn [map fst].
    rewrite list_elem_of_singleton. tauto.
Qed.

(** When the response holds a frame for the keyword and the ranking,
    [process_related_query_response] returns that frame with as many
    rows as before, every row tagged with the keyword, the ranking, the
    location and the time of the call, and every other column as it
    was. *)
Theorem process_related_query_response_tags
    (response : list (string * list (string * option DataFrame)))
    (kw geo ranking now : string)
    (per_kw : list (string * option DataFrame)) (df : DataFrame) :
  dict_get response kw = Some per_kw →
  dict_get per_kw ranking = Some (Some df) →
  let out := process_related_query_response response kw geo ranking now in
  Pd.nrows out = Pd.nrows df
  ∧ index out = index df
  ∧ Pd.column (LStr "keyword") out = Ok (replicate (Pd.nrows df) (CStr kw))
  ∧ Pd.column (LStr "ranking") out = Ok (replicate (Pd.nrows df) (CStr ranking))
  ∧ Pd.column (LStr "geo") out = Ok (replicate (Pd.nrows df) (CStr geo))
  ∧ Pd.column (LStr "query_timestamp") out
    = Ok (replicate (Pd.nrows df) (CTime now))
  ∧ ∀ c, c ∉ [LStr "keyword"; LStr "ranking"; LStr "geo"; LStr "query_timestamp"] →
         Pd.column c out = Pd.column c df.
Proof.
  intros Hkw Hranking out. subst out.
  unfold process_related_query_response. rewrite Hkw. cbn [mbind option_bind].
  rewrite Hranking.
  pose proof (λ c v d, proj1 (set_scalar_rows c v d)) as Hrows.
  pose proof (λ c v d, proj2 (set_scalar_rows c v d)) as Hindex.
  split; [by rewrite !Hrows|]. split; [by rewrite !Hindex|].
  split; [by rewrite !set_scalar_other, set_scalar_same by done|].
  split; [by rewrite !set_scalar_other, set_scalar_same, !Hrows by done|].
  split; [by rewrite !set_scalar_other, set_scalar_same, !Hrows by done|].
  split; [by rewrite set_scalar_same, !Hrows|].
  intros c Hc.
  rewrite !set_scalar_other; [done|intros ->; apply Hc..].
  - apply list_elem_of_here.
  - do 1 apply list_elem_of_further. apply list_elem_of_here.
  - do 2 apply list_elem_of_further. apply list_elem_of_here.
  - do 3 apply list_elem_of_further. apply list_elem_of_here.
Qed.

Lemma process_related_query_response_tags_witness :
  let df := mkDataFrame None [CInt 0]
              [(LStr "query", [CStr "pizza hut"]); (LStr "value", [CInt 100])] in
  let per_kw := [("top", Some df); ("rising", None)] in
  let response := [("pizza", per_kw)] in
  let out := process_related_query_response response "pizza" "global" "top"
               "2020-01-05 12:00:00" in
  dict_get response "pizza" = Some per_kw
  ∧ dict_get per_kw "top" = Some (Some df)
  ∧ Pd.nrows out = Pd.nrows df
  ∧ index out = index df
  ∧ Pd.column (LStr "keyword") out = Ok (replicate (Pd.nrows df) (CStr "pizza"))
  ∧ Pd.column (LStr "ranking") out = Ok (replicate (Pd.nrows df) (CStr "top"))
  ∧ Pd.column (LStr "geo") out = Ok (replicate (Pd.nrows df) (CStr "global"))
  ∧ Pd.column (LStr "query_timestamp") out
    = Ok (replicate (Pd.nrows df) (CTime "2020-01-05 12:00:00"))
  ∧ ∀ c, c ∉ [LStr "keyword"; LStr "ranking"; LStr "geo"; LStr "query_timestamp"] →
         Pd.column c out = Pd.column c df.
Proof.
  intros df per_kw response out.
  do 2 (split; [reflexivity|]).
  exact (process_related_query_response_tags response "pizza" "global" "top"
           "2020-01-05 12:00:00" per_kw df eq_refl eq_refl).
Defined.

(** When the keyword is not in the response, or the ranking is not among
    the keyword's entries, or the entry is [None], the result is the
    frame without rows that has the six columns. *)
Theorem process_related_query_response_missing
    (response : list (string * list (string * option DataFrame)))
    (kw geo ranking now : string) :
  (dict_get response kw = None
   ∨ ∃ per_kw, dict_get response kw = Some per_kw
               ∧ (dict_get per_kw ranking = None
                  ∨ dict_get per_kw ranking = Some None)) →
  process_related_query_response response kw geo ranking now
  = Pd.of_columns ["query"; "value"; "keyword"; "ranking"; "geo";
                   "query_timestamp"].
Proof.
  unfold process_related_query_response.
  intros [->|(per_kw & -> & [Hr|Hr])]; [done|..];
    cbn [mbind option_bind]; by rewrite Hr.
Qed.

Lemma process_related_query_response_missing_witness :
  let response := [("pizza", [("top", None)])] in
  (dict_get response "pizza" = None
   ∨ ∃ per_kw, dict_get response "pizza" = Some per_kw
               ∧ (dict_get per_kw "rising" = None
                  ∨ dict_get per_kw "rising" = Some None))
  ∧ process_related_query_response response "pizza" "global" "rising"
      "2020-01-05 12:00:00"
    = Pd.of_columns ["query"; "value"; "keyword"; "ranking"; "geo";
                     "query_timestamp"].
Proof.
  intros response.
  assert (dict_get response "pizza" = None
          ∨ ∃ per_kw, dict_get response "pizza" = Some per_kw
                      ∧ (dict_get per_kw "rising" = None
                         ∨ dict_get per_kw "rising" = Some None)) as H
    by (right; exists [("top", None)]; split; [reflexivity|left; reflexivity]).
  split; [exact H|].
  exact (process_related_query_response_missing response "pizza" "global"
           "rising" "2020-01-05 12:00:00" H).
Defined.

Lemma process_related_query_response_labels response kw geo ranking now c :
  c ∈ tag_columns →
  c ∈ Pd.labels (process_related_query_response response kw geo ranking now).
Proof.
  intros Hc. unfold process_related_query_response.
  destruct (dict_get response kw ≫= _) as [[df|]|].
  - rewrite !set_scalar_labels. unfold tag_columns in Hc.
    repeat (apply elem_of_cons in Hc as [->|Hc]); [tauto..|].
    by apply elem_of_nil in Hc.
  - unfold Pd.of_columns, Pd.labels, tag_columns in *. cbn [columns map fst].
    by do 2 apply list_elem_of_further.
  - unfold Pd.of_columns, Pd.labels, tag_columns in *. cbn [columns map fst].
    by do 2 apply list_elem_of_further.
Qed.

Lemma concat_labels frames out c :
  Pd.concat frames = Ok out →
  c ∈ Pd.labels out ↔ ∃ df, df ∈ frames ∧ c ∈ Pd.labels df.
Proof.
  unfold Pd.concat. destruct frames as [|f frames]; [done|].
  intros [= <-]. unfold Pd.labels at 1. cbn [columns]. rewrite map_map.
  rewrite (map_ext _ id) by done.
  rewrite map_id, elem_of_remove_dups, elem_of_app.
  pose proof (list_elem_of_bind (λ df : DataFrame, Pd.labels df) c frames) as Hb.
  unfold mbind in Hb. rewrite Hb. split.
  - intros [Hc|(df & Hc & Hin)].
    + exists f. split; [apply list_elem_of_here|done].
    + exists df. split; [by apply list_elem_of_further|done].
  - intros (df & [->|Hin]%elem_of_cons & Hc); [by left|].
    right. by exists df.
Qed.

Lemma pairs_nonempty (rankings keywords : list string) :
  (r ← rankings; kw ← keywords; [(r, kw)]) = []
  ↔ rankings = [] ∨ keywords = [].
Proof.
  split.
  - destruct rankings as [|r rankings]; [by left|].
    destruct keywords as [|kw keywords]; [by right|]. done.
  - intros [->| ->]; [done|]. induction rankings as [|r rankings IH]; [done|].
    cbn [mbind list_bind app]. exact IH.
Qed.

(** Without rankings or without keywords there is nothing to
    concatenate, and [create_related_queries_dataframe] raises
    [ValueError]. *)
Theorem create_related_queries_dataframe_empty
    (response : list (string * list (string * option DataFrame)))
    (rankings keywords : list string) (geo_description : string)
    (clock : nat → string) :
  rankings = [] ∨ keywords = [] →
  create_related_queries_dataframe response rankings keywords geo_description
    clock
  = Raise (ValueError "No objects to concatenate").
Proof.
  intros Hempty%pairs_nonempty. unfold create_related_queries_dataframe.
  by rewrite Hempty.
Qed.

Lemma create_related_queries_dataframe_empty_witness :
  (["top"; "rising"] = [] ∨ @nil string = [])
  ∧ create_related_queries_dataframe [] ["top"; "rising"] [] "global"
      (λ _, "2020-01-05 12:00:00")
    = Raise (ValueError "No objects to concatenate").
Proof.
  assert (["top"; "rising"] = [] ∨ @nil string = []) as H by (right; reflexivity).
  split; [exact H|].
  exact (create_related_queries_dataframe_empty [] ["top"; "rising"] [] "global"
           (λ _, "2020-01-05 12:00:00") H).
Defined.

(** With at least one ranking and one keyword
    [create_related_queries_dataframe] returns a frame, and that frame
    has the four tag columns whatever the response holds. *)
Lemma create_related_queries_dataframe_tagged
    (response : list (string * list (string * option DataFrame)))
    (rankings keywords : list string) (geo_description : string)
    (clock : nat → string) :
  rankings ≠ [] → keywords ≠ [] →
  ∃ out,
    create_related_queries_dataframe response rankings keywords
      geo_description clock = Ok out
    ∧ Forall (λ c, c ∈ Pd.labels out) tag_columns.
Proof.
  intros Hr Hk. unfold create_related_queries_dataframe.
  destruct (r ← rankings; kw ← keywords; [(r, kw)]) as [|[r kw] calls] eqn:Hcalls.
  { apply pairs_nonempty in Hcalls as [?|?]; done. }
  cbn [imap].
  set (first := process_related_query_response response kw geo_description r
                  (clock 0%nat)).
  set (others := imap _ calls).
  destruct (Pd.concat (first :: others)) as [out|] eqn:Hout; [|done].
  exists out. split; [done|]. apply Forall_forall. intros c Hc.
  apply (concat_labels _ _ c Hout). exists first.
  split; [apply list_elem_of_here|].
  by apply process_related_query_response_labels.
Qed.

(** When the provider answers with an empty dict, the pipeline raises
    [IndexError]: there is no first keyword to read the rankings from. *)
Theorem get_related_queries_pipeline_empty_response (pytrends_session : Session)
    (keywords : list string) (cat : Z) (geo geo_description : string)
    (clock : nat → string) :
  provider_related_queries pytrends_session
    (mkPayload keywords cat "today 5-y" geo) = Ok (RDict []) →
  get_related_queries_pipeline pytrends_session (KwList keywords) cat geo
    geo_description clock
  = Raise IndexError.
Proof.
  intros Hq. unfold get_related_queries_pipeline.
  by rewrite get_related_queries_unfold, Hq.
Qed.

Lemma get_related_queries_pipeline_empty_response_witness :
  provider_related_queries Demo.silent (mkPayload [] 0 "today 5-y" "")
  = Ok (RDict [])
  ∧ get_related_queries_pipeline Demo.silent (KwList []) 0 "" "global"
      (λ _, "2020-01-05 12:00:00")
    = Raise IndexError.
Proof.
  split; [reflexivity|].
  exact (get_related_queries_pipeline_empty_response Demo.silent [] 0 ""
           "global" (λ _, "2020-01-05 12:00:00") eq_refl).
Defined.

(** When the provider answers with a dict whose first keyword has at
    least one ranking, the pipeline returns a frame with the four tag
    columns; the rankings of the first keyword are used for all of
    them. *)
Theorem get_related_queries_pipeline_tagged (pytrends_session : Session)
    (keywords : list string) (cat : Z) (geo geo_description : string)
    (clock : nat → string)
    (kw : string) (ranking : string) (entry : option DataFrame)
    (entries : list (string * option DataFrame))
    (rest : list (string * list (string * option DataFrame))) :
  let response := (kw, (ranking, entry) :: entries) :: rest in
  provider_related_queries pytrends_session
    (mkPayload keywords cat "today 5-y" geo) = Ok (RDict response) →
  ∃ out,
    get_related_queries_pipeline pytrends_session (KwList keywords) cat geo
      geo_description clock = Ok out
    ∧ get_related_queries_pipeline pytrends_session (KwList keywords) cat geo
        geo_description clock
      = create_related_queries_dataframe response
          (ranking :: map fst entries) (kw :: map fst rest) geo_description
          clock
    ∧ Forall (λ c, c ∈ Pd.labels out) tag_columns.
Proof.
  intros response Hq. unfold get_related_queries_pipeline.
  rewrite get_related_queries_unfold, Hq.
  cbn [mbind result_bind unpack_related_queries_response].
  destruct (create_related_queries_dataframe_tagged response
              (ranking :: map fst entries) (kw :: map fst rest)
              geo_description clock) as (out & Hout & Htags); [done..|].
  exists out. split; [exact Hout|]. split; [reflexivity|exact Htags].
Qed.

Lemma get_related_queries_pipeline_tagged_witness :
  let top := mkDataFrame None [CInt 0]
               [(LStr "query", [CStr "pizza hut"]); (LStr "value", [CInt 100])] in
  let response := ("pizza", ("top", Some top) :: [("rising", None)]) :: [] in
  provider_related_queries Demo.answering (mkPayload ["pizza"] 0 "today 5-y" "")
  = Ok (RDict response)
  ∧ ∃ out,
      get_related_queries_pipeline Demo.answering (KwList ["pizza"]) 0 ""
        "global" (λ _, "2020-01-05 12:00:00") = Ok out
      ∧ get_related_queries_pipeline Demo.answering (KwList ["pizza"]) 0 ""
          "global" (λ _, "2020-01-05 12:00:00")
        = create_related_queries_dataframe response
            ("top" :: map fst [("rising", @None DataFrame)])
            ("pizza" :: map fst (@nil (string * list (string * option DataFrame))))
            "global" (λ _, "2020-01-05 12:00:00")
      ∧ Forall (λ c, c ∈ Pd.labels out) tag_columns.
Proof.
  intros top response. split; [reflexivity|].
  exact (get_related_queries_pipeline_tagged Demo.answering ["pizza"] 0 ""
           "global" (λ _, "2020-01-05 12:00:00") "pizza" "top" (Some top)
           [("rising", None)] [] eq_refl).
Defined.

(** ** The template registry *)

(** Registering the template again replaces the earlier registration,
    so only the date of the last call shows; templates registered under
    other names are never touched. *)
Theorem set_layout_template_overwrites (now1 now2 : TsfPlots.Date)
    (pio : TsfPlots.Templates) (name : string) :
  TsfPlots.set_layout_template now2 (TsfPlots.set_layout_template now1 pio)
  = TsfPlots.set_layout_template now2 pio
  ∧ (name ≠ "tsf" →
     TsfPlots.registered (TsfPlots.set_layout_template now1 pio) !! name
     = TsfPlots.registered pio !! name).
Proof.
  unfold TsfPlots.set_layout_template.
  cbn [TsfPlots.registered TsfPlots.default_template]. split.
  - by rewrite insert_insert_eq.
  - intros Hne. by rewrite lookup_insert_ne.
Qed.

Lemma set_layout_template_overwrites_witness :
  let now1 := TsfPlots.mkDate 2021 3 7 in
  let now2 := TsfPlots.mkDate 2021 3 8 in
  let pio := TsfPlots.mkTemplates
               {[ "plotly" := TsfPlots.mkTemplate [] "x" "Arial" [] ]} "plotly" in
  "plotly" ≠ "tsf"
  ∧ TsfPlots.set_layout_template now2 (TsfPlots.set_layout_template now1 pio)
    = TsfPlots.set_layout_template now2 pio
  ∧ TsfPlots.registered (TsfPlots.set_layout_template now1 pio) !! "plotly"
    = TsfPlots.registered pio !! "plotly".
Proof.
  intros now1 now2 pio.
  assert ("plotly" ≠ "tsf") as Hne by discriminate.
  split; [exact Hne|].
  destruct (set_layout_template_overwrites now1 now2 pio "plotly") as [H1 H2].
  split; [exact H1|exact (H2 Hne)].
Defined.
